(** * Wflow: the browser workflow engine of [backend/app/services/browser_service.py]

  A shallow embedding of [BrowserService] (the Action Dispatcher
  [execute_workflow_step] with its helpers, the Selector Resolver
  [_click_element] / [_ai_assisted_click], the Recovery Coordinator
  [_handle_step_failure] and the Workflow Runner [execute_workflow]),
  followed by the properties of the engine.

  Python dictionaries are finite maps from strings to Python values.  A
  Python string is the string of the bytes of its UTF-8 encoding, on which
  equality, emptiness, concatenation and [in] are what they are on the
  characters.  The browser, the AI service and the wall clock are outside
  the engine: the browser and the AI service are interfaces over an external
  state, the clock is a sequence of readings.  Every call that leaves the
  engine is recorded, with its outcome, in a trace kept next to the external
  state. *)

From stdpp Require Import gmap strings list fin_maps.
From Stdlib Require Import ZArith Ascii DecimalString Lia.

Set Warnings "-register-all".

(** ** Python values *)

Inductive pyval :=
| PNone
| PBool (b : bool)
| PInt (z : Z)
| PFloat (micros : Z)      (* a number of seconds, kept exactly as microseconds *)
| PStr (s : string)
| PList (l : list pyval)
| PDict (d : gmap string pyval).

Abbreviation dict := (gmap string pyval).

(** The result of something that may raise: [Raises msg] carries [str(e)]. *)
Inductive outcome (T : Type) :=
| Returns (v : T)
| Raises (msg : string).
Arguments Returns {T} v.
Arguments Raises {T} msg.

Module Py.

(** [bool(v)] *)
Definition truthy (v : pyval) : bool :=
  match v with
  | PNone => false
  | PBool b => b
  | PInt z => negb (Z.eqb z 0)
  | PFloat z => negb (Z.eqb z 0)
  | PStr s => negb (String.eqb s EmptyString)
  | PList l => match l with [] => false | _ => true end
  | PDict d => negb (Nat.eqb (size d) 0)
  end.

(** A dict display [{k1: v1, ...}] (keys are distinct in every display below) *)
Definition mkdict (items : list (string * pyval)) : dict := list_to_map items.

(** [d[k]]: a missing key raises [KeyError(k)], whose [str] is the quoted key *)
Definition getitem (d : dict) (k : string) : outcome pyval :=
  match d !! k with
  | Some v => Returns v
  | None => Raises ("'" +:+ k +:+ "'")
  end.

(** [d.get(k, default)] *)
Definition get (d : dict) (k : string) (dflt : pyval) : pyval :=
  default dflt (d !! k).

(** [str(n)] for an integer *)
Definition str_of_Z (z : Z) : string := NilZero.string_of_int (Z.to_int z).

(** What the engine takes from the text handling of the interpreter, as
    given: [s.lower()], which follows the Unicode character database, and
    the text [str(v)] of a float, a list or a dictionary (of a dictionary in
    the insertion order of its keys, which a finite map does not keep). *)
Class Text := {
lower : string → string;
str_compound : pyval → string
}.

(** [str(v)], as an f-string renders [v] *)
Definition str `{Text} (v : pyval) : string :=
  match v with
  | PNone => "None"
  | PBool true => "True"
  | PBool false => "False"
  | PInt z => str_of_Z z
  | PStr s => s
  | PFloat _ | PList _ | PDict _ => str_compound v
  end.

(** [ms / 1000] for an integer [ms].  True division answers the float
    nearest to the quotient and raises [OverflowError] when that is out of
    range, which it is from [2^1024 - 2^970] on.  The model keeps a quotient
    as its numerator. *)
Definition float_overflow : Z := (2 ^ 1024 - 2 ^ 970)%Z.

Definition truediv_1000 (ms : Z) : outcome Z :=
  if (1000 * float_overflow <=? Z.abs ms)%Z
  then Raises "integer division result too large for a float"
  else Returns ms.
Arguments truediv_1000 : simpl never.

(** [needle in hay] on strings *)
Fixpoint contains (needle hay : string) : bool :=
  if String.prefix needle hay then true
  else match hay with
       | EmptyString => false
       | String _ hay' => contains needle hay'
       end.

(** [datetime.strftime("%Y%m%d_%H%M%S")] of a clock reading, given in
    microseconds since 1970-01-01 00:00:00 of the local calendar. *)
Definition pad2 (n : Z) : string :=
  if (n <? 10)%Z then "0" +:+ str_of_Z n else str_of_Z n.

Definition civil_from_days (days : Z) : Z * Z * Z :=
  let z := (days + 719468)%Z in
  let era := (z / 146097)%Z in
  let doe := (z - era * 146097)%Z in
  let yoe := ((doe - doe / 1460 + doe / 36524 - doe / 146096) / 365)%Z in
  let doy := (doe - (365 * yoe + yoe / 4 - yoe / 100))%Z in
  let mp := ((5 * doy + 2) / 153)%Z in
  let d := (doy - (153 * mp + 2) / 5 + 1)%Z in
  let m := (if (mp <? 10)%Z then mp + 3 else mp - 9)%Z in
  let y := (yoe + era * 400 + (if (m <=? 2)%Z then 1 else 0))%Z in
  (y, m, d).

Definition strftime (micros : Z) : string :=
  let secs := (micros / 1000000)%Z in
  let '(y, m, d) := civil_from_days (secs / 86400) in
  let sod := (secs mod 86400)%Z in
  str_of_Z y +:+ pad2 m +:+ pad2 d +:+ "_" +:+
  pad2 (sod / 3600) +:+ pad2 ((sod mod 3600) / 60) +:+ pad2 (sod mod 60).

End Py.

(** ** Workflow steps

  A step is the dictionary the interpreter produced.  Its entries are read
  with [step.get(...)]; the [parameters] bag is read key by key with a
  default, so every key is optional. *)

Record Params := {
wait_time : option Z;                     (* milliseconds *)
fallback_selectors : option (list string);
value : option string;
clear_first : option bool;
type_ : option string;                    (* parameters["type"] *)
attribute : option string;
timeout : option Z;                       (* milliseconds *)
search_text : option string;
javascript : option string
}.

Record Step := {
step_number : Z;
action_type : string;
target : string;
parameters : Params;
description : string
}.

(** [step["target"] = selector] *)
Definition set_target (step : Step) (selector : string) : Step :=
{| step_number := step.(step_number);
   action_type := step.(action_type);
   target := selector;
   parameters := step.(parameters);
   description := step.(description) |}.

(** One element of [analysis["identified_elements"]] *)
Record Element := {
el_description : option string;
el_selector : option string
}.

(** ** The external capabilities *)

(** Calls that leave the engine.  Sleeps and waits carry milliseconds. *)
Inductive Event :=
| EGoto (url : string)
| ETitle
| EClick (sel : string)
| EClear (sel : string)
| EType (sel text : string)
| EText (sel : string)
| EAttribute (sel attr : string)
| ETextAll (sel : string)
| EWaitForElement (cond : string) (timeout_ms : Z)
| EWaitForText (cond : string) (timeout_ms : Z)
| EExists (cond : string)
| EEvaluate (js : string)
| EScreenshot (path : string)
| ESleep (ms : Z)
| EAnalyze (path task : string)
| ERecovery (error_description workflow_context : string).

(** [self.browser]: the [BrowserUse] object *)
Class Browser (E : Type) := {
br_goto : string → E → outcome unit * E;
br_title : E → outcome string * E;
br_click : string → E → outcome unit * E;
br_clear : string → E → outcome unit * E;
br_type : string → string → E → outcome unit * E;
br_text : string → E → outcome string * E;
br_attribute : string → string → E → outcome pyval * E;
br_text_all : string → E → outcome (list string) * E;
br_wait_for_element : string → Z → E → outcome unit * E;
br_wait_for_text : string → Z → E → outcome unit * E;
br_exists : string → E → outcome bool * E;
br_evaluate : string → E → outcome pyval * E;
br_screenshot : string → E → outcome unit * E
}.

(** [ai_service]: [analyze_screenshot] answers with the identified elements,
  [generate_error_recovery_strategy] with the ["recommended_action"] entry
  of its answer, if there is one. *)
Class Advisor (E : Type) := {
analyze_screenshot : string → string → E → outcome (list Element) * E;
generate_error_recovery_strategy : string → string → E → outcome (option string) * E
}.

(** The world a run lives in: the external state, the number of clock
  readings taken so far, and the calls made so far, oldest first, each
  with whether it returned ([true]) or raised ([false]). *)
Record World (E : Type) := {
ext : E;
reads : nat;
trace : list (Event * bool)
}.
Arguments ext {E} _.
Arguments reads {E} _.
Arguments trace {E} _.

Definition returned {T} (o : outcome T) : bool :=
match o with Returns _ => true | Raises _ => false end.

(** ** The engine *)

Section Engine.

Context {E : Type} `{Browser E} `{Advisor E} `{Py.Text}.

(** [clock k] is the [k]-th reading of [datetime.now()]. *)
Variable clock : nat → Z.

Definition M (T : Type) : Type := World E → T * World E.

Definition ret {T} (x : T) : M T := λ w, (x, w).

Definition bind {T U} (c : M T) (k : T → M U) : M U :=
  λ w, let (x, w') := c w in k x w'.

Notation "x <- c ;; k" := (bind c (λ x, k))
  (at level 100, c at next level, right associativity).
Notation "c ;;; k" := (bind c (λ _, k))
  (at level 100, right associativity).

(** An external call: performed on the external state and recorded. *)
Definition call {T} (ev : Event) (op : E → outcome T * E) : M (outcome T) :=
  λ w, let (r, e') := op (ext w) in
       (r, {| ext := e'; reads := reads w; trace := trace w ++ [(ev, returned r)] |}).

(** [await asyncio.sleep(seconds)], for [ms] milliseconds *)
Definition sleep (ms : Z) : M unit :=
  λ w, (tt, {| ext := ext w; reads := reads w; trace := trace w ++ [(ESleep ms, true)] |}).

(** [await asyncio.sleep(ms / 1000)]: the division comes first, and when it
    raises there is no sleep. *)
Definition sleep_millis (ms : Z) : M (outcome unit) :=
  match Py.truediv_1000 ms with
  | Raises msg => ret (Raises msg)
  | Returns _ => sleep ms ;;; ret (Returns tt)
  end.

(** [datetime.now()] *)
Definition now : M Z :=
  λ w, (clock (reads w), {| ext := ext w; reads := S (reads w); trace := trace w |}).

(** [{"success": False, "error": str(e)}] *)
Definition failure (msg : string) : dict :=
  Py.mkdict [("success", PBool false); ("error", PStr msg)].

Definition _take_screenshot : M string :=
  t <- now ;;
  let timestamp := Py.strftime t in
  let filename := "screenshot_" +:+ timestamp +:+ ".png" in
  let filepath := "screenshots/" +:+ filename in
  r <- call (EScreenshot filepath) (br_screenshot filepath) ;;
  match r with
  | Returns _ => ret filepath
  | Raises _ => ret EmptyString
  end.

Definition _navigate_to_url (url : string) (parameters : Params) : M dict :=
  r <- call (EGoto url) (br_goto url) ;;
  match r with
  | Raises msg => ret (failure msg)
  | Returns _ =>
    let wait_time := default 3000%Z parameters.(wait_time) in
    s <- (if (0 <? wait_time)%Z then sleep_millis wait_time else ret (Returns tt)) ;;
    match s with
    | Raises msg => ret (failure msg)
    | Returns _ =>
      t <- call ETitle br_title ;;
      match t with
      | Raises msg => ret (failure msg)
      | Returns title =>
        shot <- _take_screenshot ;;
        ret (Py.mkdict [("success", PBool true);
                        ("data", PDict (Py.mkdict [("url", PStr url); ("title", PStr title)]));
                        ("screenshot", PStr shot)])
      end
    end
  end.


(** The AI-assisted search of [_ai_assisted_click]: the elements the advisor
    identified, in the order returned. *)
Fixpoint ai_click_loop (element_description screenshot_path : string)
    (identified_elements : list Element) : M dict :=
  match identified_elements with
  | [] => ret (failure "AI could not find the specified element")
  | element :: rest =>
    if Py.contains (Py.lower element_description)
                   (Py.lower (default EmptyString element.(el_description))) then
      match element.(el_selector) with
      | Some selector =>
        if Py.truthy (PStr selector) then
          r <- call (EClick selector) (br_click selector) ;;
          match r with
          | Returns _ =>
            ret (Py.mkdict [("success", PBool true);
                            ("data", PDict (Py.mkdict [("selector", PStr selector);
                                                       ("ai_assisted", PBool true)]));
                            ("screenshot", PStr screenshot_path)])
          | Raises _ => ai_click_loop element_description screenshot_path rest
          end
        else ai_click_loop element_description screenshot_path rest
      | None => ai_click_loop element_description screenshot_path rest
      end
    else ai_click_loop element_description screenshot_path rest
  end.

Definition _ai_assisted_click (element_description : string) (parameters : Params) : M dict :=
  screenshot_path <- _take_screenshot ;;
  let task := "Find and click element: " +:+ element_description in
  a <- call (EAnalyze screenshot_path task) (analyze_screenshot screenshot_path task) ;;
  match a with
  | Raises msg => ret (failure msg)
  | Returns identified_elements =>
    ai_click_loop element_description screenshot_path identified_elements
  end.

(** The [for sel in selectors] loop of [_click_element]; [otherwise] is what
    follows the loop.  The inner [try] covers the click and the settle wait:
    when either raises, the loop goes on with the next selector. *)
Fixpoint click_loop (selectors : list string) (parameters : Params)
    (otherwise : M dict) : M dict :=
  match selectors with
  | [] => otherwise
  | sel :: rest =>
    r <- call (EClick sel) (br_click sel) ;;
    match r with
    | Returns _ =>
      let wait_time := default 1000%Z parameters.(wait_time) in
      s <- (if (0 <? wait_time)%Z then sleep_millis wait_time else ret (Returns tt)) ;;
      match s with
      | Returns _ =>
        shot <- _take_screenshot ;;
        ret (Py.mkdict [("success", PBool true);
                        ("data", PDict (Py.mkdict [("selector", PStr sel);
                                                   ("action", PStr "clicked")]));
                        ("screenshot", PStr shot)])
      | Raises _ => click_loop rest parameters otherwise
      end
    | Raises _ => click_loop rest parameters otherwise
    end
  end.

Definition _click_element (selector : string) (parameters : Params) : M dict :=
  let selectors := [selector] ++ default [] parameters.(fallback_selectors) in
  click_loop selectors parameters (_ai_assisted_click selector parameters).

Definition _fill_form (selector : string) (parameters : Params) : M dict :=
  let value := default EmptyString parameters.(value) in
  let clear_first := default true parameters.(clear_first) in
  c <- (if clear_first then call (EClear selector) (br_clear selector)
        else ret (Returns tt)) ;;
  match c with
  | Raises msg => ret (failure msg)
  | Returns _ =>
    t <- call (EType selector value) (br_type selector value) ;;
    match t with
    | Raises msg => ret (failure msg)
    | Returns _ =>
      shot <- _take_screenshot ;;
      ret (Py.mkdict [("success", PBool true);
                      ("data", PDict (Py.mkdict [("selector", PStr selector);
                                                 ("value", PStr value)]));
                      ("screenshot", PStr shot)])
    end
  end.

Definition browser_text (selector : string) : M (outcome pyval) :=
  r <- call (EText selector) (br_text selector) ;;
  ret (match r with Returns s => Returns (PStr s) | Raises msg => Raises msg end).

Definition _extract_data (selector : string) (parameters : Params) : M dict :=
  let extraction_type := default "text" parameters.(type_) in
  d <- (if String.eqb extraction_type "text" then browser_text selector
        else if String.eqb extraction_type "attribute" then
          let attr := default "href" parameters.(attribute) in
          call (EAttribute selector attr) (br_attribute selector attr)
        else if String.eqb extraction_type "multiple" then
          r <- call (ETextAll selector) (br_text_all selector) ;;
          ret (match r with
               | Returns l => Returns (PList (PStr <$> l))
               | Raises msg => Raises msg
               end)
        else browser_text selector) ;;
  match d with
  | Raises msg => ret (failure msg)
  | Returns data =>
    shot <- _take_screenshot ;;
    ret (Py.mkdict [("success", PBool true);
                    ("data", PDict (Py.mkdict [("selector", PStr selector);
                                               ("extracted_data", data)]));
                    ("screenshot", PStr shot)])
  end.

Definition _wait_action (condition : string) (parameters : Params) : M dict :=
  let wait_type := default "time" parameters.(type_) in
  let timeout := default 10000%Z parameters.(timeout) in
  r <- (if String.eqb wait_type "time" then sleep_millis timeout
        else if String.eqb wait_type "element" then
          call (EWaitForElement condition timeout) (br_wait_for_element condition timeout)
        else if String.eqb wait_type "text" then
          call (EWaitForText condition timeout) (br_wait_for_text condition timeout)
        else ret (Returns tt)) ;;
  match r with
  | Raises msg => ret (failure msg)
  | Returns _ =>
    shot <- _take_screenshot ;;
    ret (Py.mkdict [("success", PBool true);
                    ("data", PDict (Py.mkdict [("condition", PStr condition);
                                               ("wait_type", PStr wait_type)]));
                    ("screenshot", PStr shot)])
  end.

Definition _execute_conditional (condition : string) (parameters : Params)
    (context : dict) : M dict :=
  let condition_type := default "element_exists" parameters.(type_) in
  r <- (if String.eqb condition_type "element_exists" then
          e <- call (EExists condition) (br_exists condition) ;;
          ret (match e with
               | Returns b => Returns (PBool b)
               | Raises msg => Raises msg
               end)
        else if String.eqb condition_type "text_contains" then
          t <- call (EText condition) (br_text condition) ;;
          ret (match t with
               | Returns text =>
                 let search_text := default EmptyString parameters.(search_text) in
                 Returns (PBool (Py.contains search_text text))
               | Raises msg => Raises msg
               end)
        else if String.eqb condition_type "custom" then
          let js_code := default EmptyString parameters.(javascript) in
          call (EEvaluate js_code) (br_evaluate js_code)
        else ret (Returns (PBool false))) ;;
  match r with
  | Raises msg => ret (failure msg)
  | Returns result =>
    shot <- _take_screenshot ;;
    ret (Py.mkdict [("success", PBool true);
                    ("data", PDict (Py.mkdict [("condition", PStr condition);
                                               ("result", result)]));
                    ("screenshot", PStr shot)])
  end.

(** The branch of [execute_workflow_step] on [action_type]; [result] is the
    dictionary prepared before it. *)
Definition dispatch (step : Step) (context : dict) (result : dict) : M dict :=
  let action_type := step.(action_type) in
  let target := step.(target) in
  let parameters := step.(parameters) in
  if String.eqb action_type "navigate" then _navigate_to_url target parameters
  else if String.eqb action_type "click" then _click_element target parameters
  else if String.eqb action_type "fill" then _fill_form target parameters
  else if String.eqb action_type "extract" then _extract_data target parameters
  else if String.eqb action_type "wait" then _wait_action target parameters
  else if String.eqb action_type "conditional" then
    _execute_conditional target parameters context
  else ret (<["error" := PStr ("Unknown action type: " +:+ action_type)]> result).

Definition execute_workflow_step (step : Step) (context : dict) : M dict :=
  let result :=
    Py.mkdict [("step_number", PInt step.(step_number));
               ("action_type", PStr step.(action_type));
               ("success", PBool false);
               ("data", PNone);
               ("screenshot", PNone);
               ("error", PNone);
               ("duration", PInt 0)] in
  start_time <- now ;;
  result <- dispatch step context result ;;
  end_time <- now ;;
  let result := <["duration" := PFloat (end_time - start_time)]> result in
  match Py.getitem result "success" with
  | Returns ok =>
    if Py.truthy ok then
      shot <- _take_screenshot ;;
      ret (<["screenshot" := PStr shot]> result)
    else ret result
  | Raises msg =>
    (* except Exception as e *)
    ret (Py.mkdict [("step_number", PInt step.(step_number));
                    ("action_type", PStr step.(action_type));
                    ("success", PBool false);
                    ("error", PStr msg);
                    ("duration", PInt 0)])
  end.

(** [_handle_step_failure] also answers with the step, whose ["target"] it
    may have overwritten: the step dictionary is the caller's.  The advisor
    formats the error description it is given into its prompt, so it is
    handed over as [str] renders it. *)
Definition recovery_failed (error_description : pyval) : dict :=
  Py.mkdict [("success", PBool false);
             ("error", PStr ("Recovery failed: " +:+ Py.str error_description));
             ("recovery_attempted", PBool true)].

Definition _handle_step_failure (step : Step) (step_result : dict) (context : dict)
    : M (Step * dict) :=
  let error_description := Py.get step_result "error" (PStr "Unknown error") in
  let workflow_context :=
    "Step " +:+ Py.str_of_Z step.(step_number) +:+ ": " +:+ step.(description) in
  s <- call (ERecovery (Py.str error_description) workflow_context)
            (generate_error_recovery_strategy (Py.str error_description) workflow_context) ;;
  match s with
  | Raises msg => ret (step, failure msg)
  | Returns recovery_strategy =>
    let recommended_action := default "manual_intervention" recovery_strategy in
    if String.eqb recommended_action "immediate_retry" then
      sleep 2000 ;;;
      r <- execute_workflow_step step context ;;
      ret (step, r)
    else if String.eqb recommended_action "alternative_approach" then
      match default [] step.(parameters).(fallback_selectors) with
      | selector :: _ =>
        (* the body returns in its first round: [execute_workflow_step]
           catches every exception itself, so [continue] is never reached *)
        let step := set_target step selector in
        r <- execute_workflow_step step context ;;
        ret (step, r)
      | [] => ret (step, recovery_failed error_description)
      end
    else ret (step, recovery_failed error_description)
  end.

(** One round of the [for step in workflow_steps] loop of [execute_workflow]:
    the new [results] and [context], and whether the loop goes on ([false]
    after [break]); [Raises] when the round raised. *)
Definition workflow_round (step : Step) (results : list dict) (context : dict)
    : M (Step * outcome (list dict * dict * bool)) :=
  step_result <- execute_workflow_step step context ;;
  let results := results ++ [step_result] in
  match Py.getitem step_result "success" with
  | Raises msg => ret (step, Raises msg)
  | Returns ok =>
    let updated :=
      if Py.truthy ok then
        match Py.getitem step_result "data" with
        | Returns data =>
          Returns (<["step_" +:+ Py.str_of_Z step.(step_number) +:+ "_result" := data]> context)
        | Raises msg => Raises msg
        end
      else Returns context in
    match updated with
    | Raises msg => ret (step, Raises msg)
    | Returns context =>
      if negb (Py.truthy ok) then
        sr <- _handle_step_failure step step_result context ;;
        let '(step, recovery_result) := sr in
        match Py.getitem recovery_result "success" with
        | Raises msg => ret (step, Raises msg)
        | Returns recovered =>
          if Py.truthy recovered then
            ret (step, Returns (<[pred (length results) := recovery_result]> results,
                                context, true))
          else ret (step, Returns (results, context, false))
        end
      else ret (step, Returns (results, context, true))
    end
  end.

Fixpoint workflow_loop (workflow_steps : list Step) (results : list dict) (context : dict)
    : M (list Step * outcome (list dict * dict)) :=
  match workflow_steps with
  | [] => ret ([], Returns (results, context))
  | step :: rest =>
    rd <- workflow_round step results context ;;
    match rd with
    | (step', Raises msg) => ret (step' :: rest, Raises msg)
    | (step', Returns (results, context, true)) =>
      lp <- workflow_loop rest results context ;;
      ret (step' :: lp.1, lp.2)
    | (step', Returns (results, context, false)) =>
      ret (step' :: rest, Returns (results, context))
    end
  end.

(** [sum(1 for r in results if r["success"])] *)
Fixpoint count_successful (results : list dict) : outcome Z :=
  match results with
  | [] => Returns 0%Z
  | r :: rest =>
    match Py.getitem r "success" with
    | Raises msg => Raises msg
    | Returns ok =>
      match count_successful rest with
      | Raises msg => Raises msg
      | Returns n => Returns (if Py.truthy ok then 1 + n else n)%Z
      end
    end
  end.

(** [[r["screenshot"] for r in results if r["screenshot"]]] *)
Fixpoint collect_screenshots (results : list dict) : outcome (list pyval) :=
  match results with
  | [] => Returns []
  | r :: rest =>
    match Py.getitem r "screenshot" with
    | Raises msg => Raises msg
    | Returns shot =>
      match collect_screenshots rest with
      | Raises msg => Raises msg
      | Returns shots => Returns (if Py.truthy shot then shot :: shots else shots)
      end
    end
  end.

(** The report of the [except] branch of [execute_workflow] *)
Definition error_report (workflow_steps : list Step) (msg : string) : dict :=
  Py.mkdict [("workflow_success", PBool false);
             ("error", PStr msg);
             ("steps_completed", PInt 0);
             ("total_steps", PInt (Z.of_nat (length workflow_steps)));
             ("step_results", PList [])].

Definition build_report (workflow_steps : list Step) (results : list dict)
    (context : dict) : dict :=
  match count_successful results with
  | Raises msg => error_report workflow_steps msg
  | Returns successful_steps =>
    let total_steps := Z.of_nat (length results) in
    match collect_screenshots results with
    | Raises msg => error_report workflow_steps msg
    | Returns screenshots =>
      Py.mkdict [("workflow_success", PBool (Z.eqb successful_steps total_steps));
                 ("steps_completed", PInt successful_steps);
                 ("total_steps", PInt total_steps);
                 ("step_results", PList (PDict <$> results));
                 ("context", PDict context);
                 ("screenshots", PList screenshots)]
    end
  end.

(** [execute_workflow] answers with the report and with the step list as the
    run left it (recovery overwrites ["target"] in place). *)
Definition execute_workflow (workflow_steps : list Step) (context : option dict)
    : M (dict * list Step) :=
  let context := default ∅ context in
  lp <- workflow_loop workflow_steps [] context ;;
  match lp with
  | (steps', Raises msg) => ret (error_report workflow_steps msg, steps')
  | (steps', Returns (results, context)) =>
    ret (build_report workflow_steps results context, steps')
  end.

End Engine.

Arguments sleep_millis : simpl never.

(** ** A deterministic fake of the capabilities

    The browser raises on the locators and URLs listed in [broken] and
    answers every other call; the advisor always identifies [proposals] and
    always recommends [advice].  Nothing changes the state.  The texts of
    the scenarios are of the first 256 characters (ASCII and Latin-1), and
    no scenario renders a float, a list or a dictionary. *)

Module Fake.

(** [s.lower()] on text of the first 256 characters: the letters [A] to [Z]
    go to [a] to [z], and the letters from U+00C0 to U+00DE, but for the
    sign U+00D7, go 32 further; in UTF-8 these are the byte 195 followed by
    a byte from 128 to 158, but for 151. *)
Definition lower_letter (c : ascii) : ascii :=
  let n := nat_of_ascii c in
  if (Nat.leb 65 n && Nat.leb n 90)%bool then ascii_of_nat (n + 32) else c.

Fixpoint lower_latin (s : string) : string :=
  match s with
  | EmptyString => EmptyString
  | String c s' =>
    match s' with
    | String d s'' =>
      let n := nat_of_ascii d in
      if (Nat.eqb (nat_of_ascii c) 195 && Nat.leb 128 n && Nat.leb n 158
          && negb (Nat.eqb n 151))%bool
      then String c (String (ascii_of_nat (n + 32)) (lower_latin s''))
      else String (lower_letter c) (lower_latin s')
    | EmptyString => String (lower_letter c) EmptyString
    end
  end.

#[export] Instance text : Py.Text := {|
  Py.lower := lower_latin;
  Py.str_compound := λ _, EmptyString
|}.

Record Env := {
  broken : list string;
  advice : option string;
  proposals : list Element
}.

Definition is_broken (env : Env) (loc : string) : bool :=
  existsb (String.eqb loc) env.(broken).

Definition act (loc : string) (env : Env) : outcome unit * Env :=
  if is_broken env loc then (Raises ("no such element: " +:+ loc), env)
  else (Returns tt, env).

#[export] Instance browser : Browser Env := {|
  br_goto := act;
  br_title := λ env, (Returns "Example", env);
  br_click := act;
  br_clear := act;
  br_type := λ sel _, act sel;
  br_text := λ sel env,
    if is_broken env sel then (Raises ("no such element: " +:+ sel), env)
    else (Returns "some text", env);
  br_attribute := λ sel _ env,
    if is_broken env sel then (Raises ("no such element: " +:+ sel), env)
    else (Returns (PStr "/next"), env);
  br_text_all := λ sel env,
    if is_broken env sel then (Raises ("no such element: " +:+ sel), env)
    else (Returns ["some text"], env);
  br_wait_for_element := λ sel _, act sel;
  br_wait_for_text := λ sel _, act sel;
  br_exists := λ sel env, (Returns (negb (is_broken env sel)), env);
  br_evaluate := λ _ env, (Returns (PBool true), env);
  br_screenshot := λ _ env, (Returns tt, env)
|}.

#[export] Instance advisor : Advisor Env := {|
  analyze_screenshot := λ _ _ env, (Returns env.(proposals), env);
  generate_error_recovery_strategy := λ _ _ env, (Returns env.(advice), env)
|}.

Definition start (env : Env) : World Env :=
  {| ext := env; reads := 0; trace := [] |}.

(** A clock that advances by [step_micros] between two readings. *)
Definition ticking (step_micros : Z) (k : nat) : Z := (Z.of_nat k * step_micros)%Z.

Definition no_params : Params :=
  {| wait_time := None; fallback_selectors := None; value := None;
     clear_first := None; type_ := None; attribute := None; timeout := None;
     search_text := None; javascript := None |}.

Definition with_fallbacks (l : list string) : Params :=
  {| wait_time := None; fallback_selectors := Some l; value := None;
     clear_first := None; type_ := None; attribute := None; timeout := None;
     search_text := None; javascript := None |}.

Definition mkstep (n : Z) (action tgt : string) (p : Params) : Step :=
  {| step_number := n; action_type := action; target := tgt; parameters := p;
     description := EmptyString |}.

End Fake.

(** ** Vocabulary of the properties *)

Definition is_recovery (ev : Event) : bool :=
  match ev with ERecovery _ _ => true | _ => false end.

(** The consultations of the recovery advisor in a trace *)
Definition consultations (tr : list (Event * bool)) : nat :=
  length (omap (λ e : Event * bool, if is_recovery e.1 then Some e else None) tr).

(** The browser clicks of a trace: locator and whether the click returned *)
Definition clicks (tr : list (Event * bool)) : list (string * bool) :=
  omap (λ e : Event * bool,
          match e.1 with EClick sel => Some (sel, e.2) | _ => None end) tr.

(** [framed R c]: running [c] takes every world to an [R]-related one. *)
Definition framed {E T} (R : World E → World E → Prop) (c : M T) : Prop :=
  ∀ w, R w (c w).2.

(** [yields Q c]: whatever the world, the value [c] answers with satisfies [Q]. *)
Definition yields {E T} (Q : T → Prop) (c : M T) : Prop :=
  ∀ w : World E, Q (c w).1.

(** A step result as the Dispatcher makes them: ["success"] is there and is
    a boolean, ["recovery_attempted"] is not there. *)
Definition dispatched (r : dict) : Prop :=
  (∃ b, r !! "success" = Some (PBool b)) ∧ r !! "recovery_attempted" = None.

(** A step result counts as successful when its ["success"] entry is true. *)
Definition is_success (r : dict) : bool :=
  match r !! "success" with Some v => Py.truthy v | None => false end.

Definition successes (results : list dict) : Z :=
  Z.of_nat (length (List.filter is_success results)).

Definition same_consultations {E} (w w' : World E) : Prop :=
  consultations (trace w') = consultations (trace w).

(** What [_handle_step_failure] sends to the recovery advisor *)
Definition error_description_of `{Py.Text} (step_result : dict) : string :=
  Py.str (Py.get step_result "error" (PStr "Unknown error")).

Definition workflow_context_of (step : Step) : string :=
  "Step " +:+ Py.str_of_Z step.(step_number) +:+ ": " +:+ step.(description).

(** The world after one call [ev] that returned and left the external
    state [e'] *)
Definition after {E} (w : World E) (ev : Event) (e' : E) : World E :=
  {| ext := e'; reads := reads w; trace := trace w ++ [(ev, true)] |}.

(** The action types [execute_workflow_step] has a branch for *)
Definition recognized (action_type : string) : bool :=
  existsb (String.eqb action_type)
          ["navigate"; "click"; "fill"; "extract"; "wait"; "conditional"].

(** What the Dispatcher answers for a step it has no branch for, when the
    clock was read [k] times before *)
Definition unknown_action_result (clock : nat → Z) (step : Step) (k : nat) : dict :=
  <["duration" := PFloat (clock (S k) - clock k)]>
    (<["error" := PStr ("Unknown action type: " +:+ step.(action_type))]>
       (Py.mkdict [("step_number", PInt step.(step_number));
                   ("action_type", PStr step.(action_type));
                   ("success", PBool false);
                   ("data", PNone);
                   ("screenshot", PNone);
                   ("error", PNone);
                   ("duration", PInt 0)])).

(** [extends w w']: the trace of [w'] continues the trace of [w]. *)
Definition extends {E} (w w' : World E) : Prop :=
  ∃ d, trace w' = trace w ++ d.

(** The clicks that raised, one for each locator of [sels], in order *)
Definition failed_clicks (sels : list string) : list (Event * bool) :=
  (λ sel, (EClick sel, false)) <$> sels.

(** One click for each locator of [sels], in order, with the outcomes [oks] *)
Definition attempted (sels : list string) (oks : list bool) : list (Event * bool) :=
  zip_with (λ sel ok, (EClick sel, ok)) sels oks.

(** The settle wait of [_click_element] can be computed: [wait_time] (1000
    when there is none) is not positive, or [wait_time / 1000] is a float. *)
Definition click_settles (ps : Params) : bool :=
  let wait_time := default 1000%Z ps.(wait_time) in
  negb (0 <? wait_time)%Z || returned (Py.truediv_1000 wait_time).

(** What follows a click that returned in [_click_element]: the settle
    sleep, if any, and the screenshot *)
Definition settles (tail : list (Event * bool)) : Prop :=
  Forall (λ e : Event * bool,
            (∃ ms, e.1 = ESleep ms) ∨ (∃ path, e.1 = EScreenshot path)) tail.

Definition clicked (sel : string) : pyval :=
  PDict (Py.mkdict [("selector", PStr sel); ("action", PStr "clicked")]).

(** What of a step result does not come from the wall clock: the
    ["screenshot"] and ["duration"] entries are blanked, where present. *)
Definition blank (r : dict) : dict :=
  alter (λ _, PNone) "screenshot" (alter (λ _, PNone) "duration" r).

Definition blank_entry (v : pyval) : pyval :=
  match v with PDict r => PDict (blank r) | _ => v end.

(** The same for a report: the ["screenshots"] list is blanked and so is
    every entry of ["step_results"]. *)
Definition blank_report (report : dict) : dict :=
  alter (λ _, PNone) "screenshots"
    (alter (λ v, match v with PList l => PList (blank_entry <$> l) | _ => v end)
           "step_results" report).

Definition alike (r1 r2 : dict) : Prop := blank r1 = blank r2.

(** [simulates RT c1 c2]: from worlds with the same external state, [c1] and
    [c2] answer [RT]-related values and leave the same external state. *)
Definition simulates {E T} (RT : T → T → Prop) (c1 c2 : M T) : Prop :=
  ∀ w1 w2 : World E, ext w1 = ext w2 →
    RT (c1 w1).1 (c2 w2).1 ∧ ext (c1 w1).2 = ext (c2 w2).2.

(** Two rounds of the Runner that went the same way *)
Definition alike_rounds (o1 o2 : Step * outcome (list dict * dict * bool)) : Prop :=
  o1.1 = o2.1 ∧
  match o1.2, o2.2 with
  | Returns (rs1, ctx1, go1), Returns (rs2, ctx2, go2) =>
    Forall2 alike rs1 rs2 ∧ ctx1 = ctx2 ∧ go1 = go2
  | Raises m1, Raises m2 => m1 = m2
  | _, _ => False
  end.

Definition alike_loops (o1 o2 : list Step * outcome (list dict * dict)) : Prop :=
  o1.1 = o2.1 ∧
  match o1.2, o2.2 with
  | Returns (rs1, ctx1), Returns (rs2, ctx2) => Forall2 alike rs1 rs2 ∧ ctx1 = ctx2
  | Raises m1, Raises m2 => m1 = m2
  | _, _ => False
  end.

(** ** The claims as the specification words them, and the inputs they are
    tried on *)

(** The numbering the specification asks for: [1, 2, ..., n] in order.  The
    source has no such check; this is the specification's. *)
Fixpoint numbered_from (n : Z) (steps : list Step) : bool :=
  match steps with
  | [] => true
  | s :: rest => (s.(step_number) =? n)%Z && numbered_from (n + 1) rest
  end.

Definition contiguous (steps : list Step) : bool := numbered_from 1 steps.

(** A run that was rejected before anything was executed made no call. *)
Definition rejected_up_front {E T} (w : World E) (run : T * World E) : Prop :=
  trace run.2 = trace w.

(** No locator is clicked twice. *)
Definition no_locator_twice (tr : list (Event * bool)) : Prop :=
  NoDup (clicks tr).*1.

(** The entries of [step_results] *)
Definition step_results_of (report : dict) : list pyval :=
  match report !! "step_results" with
  | Some (PList l) => l
  | _ => []
  end.

Definition carries_recovery_attempted (entry : pyval) : Prop :=
  match entry with
  | PDict r => r !! "recovery_attempted" = Some (PBool true)
  | _ => False
  end.

Module Scenario.

Import Fake.

Definition clock : nat → Z := ticking 1000000.

(** Nothing is broken. *)
Definition healthy : Env := {| broken := []; advice := None; proposals := [] |}.

(** Steps numbered 1, 2, 4 *)
Definition steps_1_2_4 : list Step :=
  [mkstep 1 "navigate" "https://x" no_params;
   mkstep 2 "extract" "#result" no_params;
   mkstep 4 "wait" EmptyString no_params].

(** Step 2 of 3 fails, the advisor recommends manual intervention. *)
Definition manual : Env :=
  {| broken := ["#submit"]; advice := Some "manual_intervention"; proposals := [] |}.

Definition three_steps : list Step :=
  [mkstep 1 "navigate" "https://x" no_params;
   mkstep 2 "click" "#submit" no_params;
   mkstep 3 "extract" "#result" no_params].

(** A fill step with two fallbacks; the advisor recommends the alternative
    approach. *)
Definition fill_step : Step := mkstep 1 "fill" "#a" (with_fallbacks ["#b"; "#c"]).

Definition only_c_works : Env :=
  {| broken := ["#a"; "#b"]; advice := Some "alternative_approach"; proposals := [] |}.

Definition only_a_broken : Env :=
  {| broken := ["#a"]; advice := Some "alternative_approach"; proposals := [] |}.

(** A click on ["#a"], which is broken; the advisor identifies ["#a"] again. *)
Definition proposes_a_again : Env :=
  {| broken := ["#a"]; advice := None;
     proposals := [{| el_description := Some "the #a button"; el_selector := Some "#a" |}] |}.

(** A step of an unknown action type; the advisor recommends a retry. *)
Definition hover_step : Step := mkstep 1 "hover" "#menu" no_params.

Definition retry : Env :=
  {| broken := []; advice := Some "immediate_retry"; proposals := [] |}.

(** A click whose settle wait is too long for a float, with fallbacks *)
Definition huge_wait (l : list string) : Params :=
  {| wait_time := Some (10 ^ 400)%Z; fallback_selectors := Some l; value := None;
     clear_first := None; type_ := None; attribute := None; timeout := None;
     search_text := None; javascript := None |}.

(** A wait step of an unknown wait type *)
Definition wait_visible : Step :=
  mkstep 1 "wait" "#spinner"
    {| wait_time := None; fallback_selectors := None; value := None;
       clear_first := None; type_ := Some "visible"; attribute := None;
       timeout := Some 60000%Z; search_text := None; javascript := None |}.

End Scenario.

(** ** Vocabulary of the further properties *)

(** The two forms of what a helper of the Dispatcher answers: the success
    display and [{"success": False, "error": str(e)}]. *)
Definition succeeded (r : dict) : Prop :=
  r !! "success" = Some (PBool true) ∧
  is_Some (r !! "data") ∧
  (∃ shot, r !! "screenshot" = Some (PStr shot)) ∧
  r !! "error" = None ∧
  r !! "step_number" = None ∧ r !! "action_type" = None.

Definition failed (r : dict) : Prop :=
  r !! "success" = Some (PBool false) ∧
  (∃ msg, r !! "error" = Some (PStr msg)) ∧
  r !! "data" = None ∧ r !! "screenshot" = None ∧
  r !! "step_number" = None ∧ r !! "action_type" = None.

(** [f"step_{step['step_number']}_result"] *)
Definition context_key (step : Step) : string :=
  "step_" +:+ Py.str_of_Z step.(step_number) +:+ "_result".

(** What recovery may have done to a step: nothing, or put the first
    fallback selector in its target. *)
Definition retargeted (step step' : Step) : Prop :=
  step' = step ∨
  ∃ selector, head (default [] step.(parameters).(fallback_selectors)) = Some selector ∧
              step' = set_target step selector.

(** The locator [_ai_assisted_click] takes from an identified element: the
    lowered description must contain the lowered element description, and
    the selector must be there and not empty. *)
Definition proposed `{Py.Text} (element_description : string) (element : Element)
    : option string :=
  if Py.contains (Py.lower element_description)
                 (Py.lower (default EmptyString element.(el_description))) then
    match element.(el_selector) with
    | Some selector => if Py.truthy (PStr selector) then Some selector else None
    | None => None
    end
  else None.

Definition ai_clicked (selector : string) : pyval :=
  PDict (Py.mkdict [("selector", PStr selector); ("ai_assisted", PBool true)]).

Definition is_screenshot (e : Event * bool) : Prop :=
  ∃ path, e.1 = EScreenshot path.

(** The error description [_handle_step_failure] reads from the step
    results the engine makes, whose ["error"] entry is a string, [None], or
    not there: [step_result.get("error", "Unknown error")] as text. *)
Definition error_text (step_result : dict) : option string :=
  match step_result !! "error" with
  | None => Some "Unknown error"
  | Some (PStr msg) => Some msg
  | Some PNone => Some "None"
  | Some _ => None
  end.

(** ** The caller: [execute_workflow] of [api/workflows.py]

    What the endpoint does with the report once the run is over: the
    [Execution] row it builds from it.  A key the report lacks raises, which
    the endpoint turns into a 500.  The database session and the start and
    the end of the browser are not part of this. *)

Module Api.

Record Execution := {
  status : string;
  result_data : dict;
  error_message : pyval;
  screenshots : pyval;
  steps_completed : pyval;
  total_steps : pyval
}.

(** [Execution(workflow_id=..., status=..., result_data=result, ...)] *)
Definition execution_of (result : dict) : outcome Execution :=
  match Py.getitem result "workflow_success" with
  | Raises msg => Raises msg
  | Returns ok =>
    match Py.getitem result "steps_completed" with
    | Raises msg => Raises msg
    | Returns completed =>
      match Py.getitem result "total_steps" with
      | Raises msg => Raises msg
      | Returns total =>
        Returns {| status := if Py.truthy ok then "completed" else "failed";
                   result_data := result;
                   error_message := Py.get result "error" PNone;
                   screenshots := Py.get result "screenshots" (PList []);
                   steps_completed := completed;
                   total_steps := total |}
      end
    end
  end.

End Api.

(** The file name [_take_screenshot] gives to the screenshot taken at the
    clock reading [t] *)
Definition screenshot_path (t : Z) : string :=
  "screenshots/" +:+ ("screenshot_" +:+ Py.strftime t +:+ ".png").

(** What a ["screenshot"] entry can be: [None], the empty string of a
    screenshot that could not be taken, or the name of a screenshot file. *)
Definition screenshot_entry (clock : nat → Z) (v : pyval) : Prop :=
  v = PNone ∨ v = PStr EmptyString ∨ ∃ k, v = PStr (screenshot_path (clock k)).

(** ** Properties *)

Section Properties.

Context {E : Type} `{Browser E} `{Advisor E} {Txt : Py.Text}.
Variable clock : nat → Z.

Lemma bind_run {T U} (c : M T) (k : T → M U) (w : World E) :
  bind c k w = k (c w).1 (c w).2.
Proof. unfold bind. by destruct (c w). Qed.

Lemma bind_eq {T U} (c : M T) (k : T → M U) (w w' : World E) (x : T) :
  c w = (x, w') → bind c k w = k x w'.
Proof. intros Hc. unfold bind. by rewrite Hc. Qed.

(** *** Frames: what a computation leaves related *)

Section Frame.

Variable P : Event → bool.
Variable R : World E → World E → Prop.
Hypothesis R_refl : ∀ w, R w w.
Hypothesis R_trans : ∀ w1 w2 w3, R w1 w2 → R w2 w3 → R w1 w3.
Hypothesis R_emit : ∀ w e' ev ok, P ev = true →
  R w {| ext := e'; reads := reads w; trace := trace w ++ [(ev, ok)] |}.
Hypothesis R_read : ∀ w,
  R w {| ext := ext w; reads := S (reads w); trace := trace w |}.

Lemma framed_ret {T} (x : T) : framed R (ret x).
Proof. intros w. apply R_refl. Qed.

Lemma framed_bind {T U} (c : M T) (k : T → M U) :
  framed R c → (∀ x, framed R (k x)) → framed R (bind c k).
Proof.
  intros Hc Hk w. rewrite bind_run.
  eapply R_trans; [apply Hc | apply Hk].
Qed.

Lemma framed_call {T} ev (op : E → outcome T * E) :
  P ev = true → framed R (call ev op).
Proof. intros HP w. unfold call. destruct (op (ext w)). by apply R_emit. Qed.

Lemma framed_sleep ms : P (ESleep ms) = true → framed R (sleep ms).
Proof. intros HP w. by apply R_emit. Qed.

Lemma framed_now : framed R (now clock).
Proof. intros w. apply R_read. Qed.

Lemma framed_sleep_millis ms : P (ESleep ms) = true → framed R (sleep_millis ms).
Proof.
  intros HP. unfold sleep_millis. destruct (Py.truediv_1000 ms); [|apply framed_ret].
  apply framed_bind; [by apply framed_sleep|]. intros ?. apply framed_ret.
Qed.

Ltac frame_step :=
  first
    [ apply framed_ret
    | apply framed_now
    | apply framed_sleep; done
    | apply framed_call; done
    | apply framed_bind; [| intros ?]
    | case_match ].

Lemma framed_take_screenshot :
  (∀ p, P (EScreenshot p) = true) → framed R (_take_screenshot clock).
Proof. intros HP. unfold _take_screenshot. repeat frame_step. Qed.

Section Dispatch.

Hypothesis P_engine : ∀ ev, is_recovery ev = false → P ev = true.

Lemma framed_screenshot : framed R (_take_screenshot clock).
Proof. apply framed_take_screenshot. intros p. by apply P_engine. Qed.

Ltac frame_auto :=
  repeat first
    [ apply framed_screenshot
    | apply framed_ret
    | apply framed_now
    | apply framed_sleep; by apply P_engine
    | apply framed_sleep_millis; by apply P_engine
    | apply framed_call; by apply P_engine
    | apply framed_bind; [| intros ?]
    | case_match ].

Lemma framed_ai_click_loop desc shot els : framed R (ai_click_loop desc shot els).
Proof. induction els as [|el els IH]; simpl; frame_auto; apply IH. Qed.

Lemma framed_ai_assisted_click desc ps : framed R (_ai_assisted_click clock desc ps).
Proof. unfold _ai_assisted_click. frame_auto. apply framed_ai_click_loop. Qed.

Lemma framed_click_loop sels ps other :
  framed R other → framed R (click_loop clock sels ps other).
Proof. intros Ho. induction sels as [|sel sels IH]; simpl; [done|]. frame_auto; apply IH. Qed.

Lemma framed_click_element sel ps : framed R (_click_element clock sel ps).
Proof. apply framed_click_loop, framed_ai_assisted_click. Qed.

Lemma framed_navigate url ps : framed R (_navigate_to_url clock url ps).
Proof. unfold _navigate_to_url. frame_auto. Qed.

Lemma framed_fill sel ps : framed R (_fill_form clock sel ps).
Proof. unfold _fill_form. frame_auto. Qed.

Lemma framed_extract sel ps : framed R (_extract_data clock sel ps).
Proof. unfold _extract_data, browser_text. frame_auto. Qed.

Lemma framed_wait cond ps : framed R (_wait_action clock cond ps).
Proof. unfold _wait_action. frame_auto. Qed.

Lemma framed_conditional cond ps ctx : framed R (_execute_conditional clock cond ps ctx).
Proof. unfold _execute_conditional. frame_auto. Qed.

Lemma framed_dispatch step ctx r : framed R (dispatch clock step ctx r).
Proof.
  unfold dispatch.
  repeat case_match;
    auto using framed_navigate, framed_click_element, framed_fill, framed_extract,
      framed_wait, framed_conditional, framed_ret.
Qed.

Lemma framed_step step ctx : framed R (execute_workflow_step clock step ctx).
Proof. unfold execute_workflow_step. frame_auto. apply framed_dispatch. Qed.

End Dispatch.

Section Runner.

Hypothesis P_all : ∀ ev, P ev = true.

Lemma framed_handle_step_failure step sr ctx :
  framed R (_handle_step_failure clock step sr ctx).
Proof.
  unfold _handle_step_failure.
  repeat first
    [ apply framed_step; by intros
    | apply framed_ret
    | apply framed_sleep; by apply P_all
    | apply framed_call; by apply P_all
    | apply framed_bind; [| intros ?]
    | case_match ].
Qed.

Lemma framed_round step rs ctx : framed R (workflow_round clock step rs ctx).
Proof.
  unfold workflow_round.
  repeat first
    [ apply framed_step; by intros
    | apply framed_handle_step_failure
    | apply framed_ret
    | apply framed_bind; [| intros ?]
    | case_match ].
Qed.

Lemma framed_loop steps rs ctx : framed R (workflow_loop clock steps rs ctx).
Proof.
  revert rs ctx. induction steps as [|s steps IH]; intros rs ctx; simpl.
  - apply framed_ret.
  - apply framed_bind; [apply framed_round|]. intros [s' [[[rs' ctx'] [|]]|msg]].
    + apply framed_bind; [apply IH|]. intros ?. apply framed_ret.
    + apply framed_ret.
    + apply framed_ret.
Qed.

Lemma round_through_dispatch step rs ctx w :
  R (execute_workflow_step clock step ctx w).2 (workflow_round clock step rs ctx w).2.
Proof.
  unfold workflow_round. rewrite bind_run.
  generalize (execute_workflow_step clock step ctx w).2.
  generalize (execute_workflow_step clock step ctx w).1. intros sr.
  match goal with |- ∀ w1, R w1 (?c w1).2 => change (framed R c) end.
  repeat first
    [ apply framed_handle_step_failure
    | apply framed_ret
    | apply framed_bind; [| intros ?]
    | case_match ].
Qed.

Lemma loop_through_round step steps rs ctx w :
  R (workflow_round clock step rs ctx w).2 (workflow_loop clock (step :: steps) rs ctx w).2.
Proof.
  cbn [workflow_loop]. rewrite bind_run.
  generalize (workflow_round clock step rs ctx w).2.
  generalize (workflow_round clock step rs ctx w).1.
  intros [s' [[[rs' ctx'] [|]]|msg]] w1; cbn [fst snd].
  - apply framed_bind; [apply framed_loop|]. intros ?. apply framed_ret.
  - apply R_refl.
  - apply R_refl.
Qed.

Lemma run_through_loop steps octx w :
  R (workflow_loop clock steps [] (default ∅ octx) w).2
    (execute_workflow clock steps octx w).2.
Proof.
  unfold execute_workflow. rewrite bind_run.
  generalize (workflow_loop clock steps [] (default ∅ octx) w).2.
  generalize (workflow_loop clock steps [] (default ∅ octx) w).1.
  intros [s' [[rs' ctx']|msg]] w1; apply R_refl.
Qed.

Lemma framed_execute_workflow steps ctx : framed R (execute_workflow clock steps ctx).
Proof.
  unfold execute_workflow. apply framed_bind; [apply framed_loop|].
  intros [s' [[rs' ctx']|msg]]; apply framed_ret.
Qed.

End Runner.

End Frame.

(** *** The shape of step results *)

Lemma yields_ret {T} (Q : T → Prop) (x : T) : Q x → yields (E:=E) Q (ret x).
Proof. by intros HQ w. Qed.

Lemma yields_bind {T U} (Q1 : T → Prop) (Q : U → Prop) (c : M T) (k : T → M U) :
  yields Q1 c → (∀ x, Q1 x → yields Q (k x)) → yields (E:=E) Q (bind c k).
Proof. intros Hc Hk w. rewrite bind_run. apply Hk, Hc. Qed.

Lemma yields_any {T} (c : M T) : yields (E:=E) (λ _, True) c.
Proof. by intros w. Qed.

Lemma dispatched_failure msg : dispatched (failure msg).
Proof. split; [by exists false | done]. Qed.

Ltac shape_auto :=
  repeat first
    [ apply yields_ret; first
        [ apply dispatched_failure
        | split; [by eexists | done] ]
    | eapply yields_bind; [apply yields_any | intros ? _]
    | case_match ].

Lemma dispatched_ai_click_loop desc shot els :
  yields dispatched (ai_click_loop desc shot els).
Proof. induction els as [|el els IH]; simpl; shape_auto; apply IH. Qed.

Lemma dispatched_ai_assisted_click desc ps :
  yields dispatched (_ai_assisted_click clock desc ps).
Proof. unfold _ai_assisted_click. shape_auto. apply dispatched_ai_click_loop. Qed.

Lemma dispatched_click_loop sels ps other :
  yields dispatched other → yields dispatched (click_loop clock sels ps other).
Proof. intros Ho. induction sels as [|sel sels IH]; simpl; [done|]. shape_auto; apply IH. Qed.

Lemma dispatched_dispatch step ctx r :
  dispatched r → yields dispatched (dispatch clock step ctx r).
Proof.
  intros [[b Hb] Hr]. unfold dispatch.
  repeat case_match.
  - unfold _navigate_to_url. shape_auto.
  - apply dispatched_click_loop, dispatched_ai_assisted_click.
  - unfold _fill_form. shape_auto.
  - unfold _extract_data, browser_text. shape_auto.
  - unfold _wait_action. shape_auto.
  - unfold _execute_conditional. shape_auto.
  - apply yields_ret. split; [exists b|]; by rewrite lookup_insert_ne.
Qed.

Lemma dispatched_step step ctx :
  yields dispatched (execute_workflow_step clock step ctx).
Proof.
  unfold execute_workflow_step.
  eapply yields_bind; [apply yields_any | intros start _].
  eapply yields_bind; [apply dispatched_dispatch | intros r [[b Hb] Hr]].
  - split; [by exists false | done].
  - eapply yields_bind; [apply yields_any | intros stop _].
    unfold Py.getitem. rewrite lookup_insert_ne, Hb by done. simpl.
    destruct b.
    + eapply yields_bind; [apply yields_any | intros shot _].
      apply yields_ret. split; [exists true|]; by rewrite !lookup_insert_ne.
    + apply yields_ret. split; [exists false|]; by rewrite !lookup_insert_ne.
Qed.

Lemma handled_step_failure step sr ctx :
  yields (λ p : Step * dict, dispatched p.2 ∨ p.2 !! "success" = Some (PBool false))
         (_handle_step_failure clock step sr ctx).
Proof.
  unfold _handle_step_failure.
  eapply yields_bind; [apply yields_any | intros s _].
  repeat case_match;
    repeat first
      [ apply yields_ret; by right
      | eapply yields_bind; [apply dispatched_step | intros r Hr];
        apply yields_ret; by left
      | eapply yields_bind; [apply yields_any | intros ? _] ].
Qed.

Lemma replace_last (rs : list dict) (sr rr : dict) :
  <[pred (length (rs ++ [sr])) := rr]> (rs ++ [sr]) = rs ++ [rr].
Proof.
  rewrite length_app. simpl. replace (pred (length rs + 1)) with (length rs + 0) by lia.
  by rewrite insert_app_r.
Qed.

Lemma round_results step rs ctx w :
  Forall dispatched rs →
  match (workflow_round clock step rs ctx w).1.2 with
  | Returns (rs', _, _) => Forall dispatched rs'
  | Raises _ => True
  end.
Proof.
  intros Hrs. unfold workflow_round. rewrite bind_run.
  pose proof (dispatched_step step ctx w) as Hsr.
  destruct (execute_workflow_step clock step ctx w) as [sr w1]. simpl in *.
  destruct Hsr as [[b Hb] Hra]. unfold Py.getitem at 1. rewrite Hb. simpl.
  assert (Forall dispatched (rs ++ [sr])) as Hall.
  { apply Forall_app. split; [done|]. apply Forall_singleton. split; [by exists b|done]. }
  destruct b; simpl.
  - unfold Py.getitem. by destruct (sr !! "data").
  - rewrite bind_run.
    pose proof (handled_step_failure step sr ctx w1) as Hrr.
    destruct (_handle_step_failure clock step sr ctx w1) as [[step' rr] w2]. simpl in *.
    unfold Py.getitem. destruct (rr !! "success") as [v|] eqn:Hv; [|done].
    destruct (Py.truthy v) eqn:Ht; simpl; [|done].
    rewrite replace_last. apply Forall_app. split; [done|]. apply Forall_singleton.
    destruct Hrr as [Hd|Hf]; [done|].
    by injection Hf as ->.
Qed.

Lemma loop_results steps rs ctx w :
  Forall dispatched rs →
  match (workflow_loop clock steps rs ctx w).1.2 with
  | Returns (rs', _) => Forall dispatched rs' ∧ (steps = [] → rs' = rs)
  | Raises _ => steps ≠ []
  end.
Proof.
  revert rs ctx w. induction steps as [|s steps IH]; intros rs ctx w Hrs; simpl; [done|].
  rewrite bind_run.
  pose proof (round_results s rs ctx w Hrs) as Hrd.
  destruct (workflow_round clock s rs ctx w) as [[s' [[[rs' ctx'] [|]]|msg]] w1]; simpl in *.
  - rewrite bind_run. simpl.
    specialize (IH rs' ctx' w1 Hrd).
    destruct (workflow_loop clock steps rs' ctx' w1) as [[steps' [[rs2 ctx2]|msg]] w2];
      simpl in *; [|done].
    split; [apply IH | done].
  - done.
  - done.
Qed.

Lemma count_successful_dispatched rs :
  Forall dispatched rs → count_successful rs = Returns (successes rs).
Proof.
  unfold successes. induction 1 as [|r rs [[b Hb] _] _ IH]; simpl; [done|].
  assert (is_success r = b) as -> by (unfold is_success; by rewrite Hb).
  unfold Py.getitem. rewrite Hb, IH.
  destruct b; cbn [Py.truthy length]; f_equal; lia.
Qed.

Lemma successes_bound rs : (0 ≤ successes rs ≤ Z.of_nat (length rs))%Z.
Proof.
  unfold successes. pose proof (List.filter_length_le is_success rs). lia.
Qed.


(** *** Consultations of the recovery advisor *)

Lemma consultations_app tr1 tr2 :
  consultations (tr1 ++ tr2) = consultations tr1 + consultations tr2.
Proof. unfold consultations. by rewrite omap_app, length_app. Qed.

Lemma consultations_one ev ok :
  consultations [(ev, ok)] = if is_recovery ev then 1 else 0.
Proof. unfold consultations. simpl. by destruct (is_recovery ev). Qed.

Lemma quiet_step step ctx : framed same_consultations (execute_workflow_step clock step ctx).
Proof.
  apply framed_step with (P := λ ev, negb (is_recovery ev)); unfold same_consultations.
  - done.
  - intros w1 w2 w3 H12 H23. congruence.
  - intros w e' ev ok HP. simpl. rewrite consultations_app, consultations_one.
    destruct (is_recovery ev); [done|lia].
  - done.
  - intros ev Hev. by rewrite Hev.
Qed.

Lemma quiet_bind {T U} (c : M T) (k : T → M U) :
  framed same_consultations c → (∀ x, framed same_consultations (k x)) →
  framed (E:=E) same_consultations (bind c k).
Proof. apply framed_bind. unfold same_consultations. congruence. Qed.

Lemma quiet_sleep ms : framed (E:=E) same_consultations (sleep ms).
Proof.
  intros w. unfold same_consultations. simpl.
  rewrite consultations_app, consultations_one. simpl. lia.
Qed.

Lemma quiet_ret {T} (x : T) : framed (E:=E) same_consultations (ret x).
Proof. by intros w. Qed.

Lemma handle_step_failure_consults step sr ctx w :
  consultations (trace (_handle_step_failure clock step sr ctx w).2)
  = S (consultations (trace w)).
Proof.
  unfold _handle_step_failure. rewrite bind_run.
  match goal with |- context [call ?ev ?op w] =>
    assert (consultations (trace (call ev op w).2) = S (consultations (trace w))) as <-;
    [ unfold call; destruct (op (ext w)); simpl;
      rewrite consultations_app, consultations_one; simpl; lia
    | destruct (call ev op w) as [s w1] ]
  end.
  cbn [fst snd]. revert w1.
  match goal with |- ∀ w1, consultations (trace (?c w1).2) = _ =>
    change (framed same_consultations c) end.
  repeat first
    [ apply quiet_ret
    | apply quiet_sleep
    | apply quiet_step
    | apply quiet_bind; [| intros ?]
    | case_match ].
Qed.

Lemma round_consults step rs ctx w :
  consultations (trace (workflow_round clock step rs ctx w).2)
  ≤ S (consultations (trace w)).
Proof.
  unfold workflow_round. rewrite bind_run.
  pose proof (quiet_step step ctx w) as Hq. unfold same_consultations in Hq.
  destruct (execute_workflow_step clock step ctx w) as [sr w1]. cbn [fst snd] in *.
  rewrite <- Hq.
  destruct (Py.getitem sr "success") as [ok|msg]; [|simpl; lia].
  destruct (Py.truthy ok); simpl.
  - destruct (Py.getitem sr "data"); simpl; lia.
  - rewrite bind_run.
    pose proof (handle_step_failure_consults step sr ctx w1) as Hh.
    destruct (_handle_step_failure clock step sr ctx w1) as [[step' rr] w2].
    cbn [fst snd] in *. rewrite <- Hh.
    destruct (Py.getitem rr "success") as [v|msg]; [|simpl; lia].
    destruct (Py.truthy v); simpl; lia.
Qed.

Lemma loop_consults steps rs ctx w :
  consultations (trace (workflow_loop clock steps rs ctx w).2)
  ≤ consultations (trace w) + length steps.
Proof.
  revert rs ctx w. induction steps as [|s steps IH]; intros rs ctx w; simpl; [lia|].
  rewrite bind_run. pose proof (round_consults s rs ctx w) as Hr.
  destruct (workflow_round clock s rs ctx w) as [[s' [[[rs' ctx'] [|]]|msg]] w1];
    cbn [fst snd] in *; try (simpl; lia).
  rewrite bind_run. cbn [snd ret]. specialize (IH rs' ctx' w1). lia.
Qed.

Lemma handle_immediate_retry step sr ctx (w : World E) e' :
  generate_error_recovery_strategy
    (error_description_of sr) (workflow_context_of step) (ext w)
  = (Returns (Some "immediate_retry"), e') →
  let asked := after w (ERecovery (error_description_of sr) (workflow_context_of step)) e' in
  let slept := after asked (ESleep 2000) e' in
  _handle_step_failure clock step sr ctx w
  = ((step, (execute_workflow_step clock step ctx slept).1),
     (execute_workflow_step clock step ctx slept).2).
Proof.
  intros Hadv. unfold _handle_step_failure. rewrite bind_run. unfold call.
  fold (error_description_of sr). fold (workflow_context_of step).
  rewrite Hadv. cbn [fst snd default from_option]. unfold id.
  change (("immediate_retry" =? "immediate_retry")%string) with true. cbv iota.
  rewrite bind_run. unfold sleep. cbn [fst snd]. rewrite bind_run.
  reflexivity.
Qed.

(** C4. The recovery advisor is consulted at most once for a step: the
    Dispatcher never consults it, one recovery pass consults it exactly once,
    a round of the Runner (one step) at most once, so a run at most once per
    step.  Under [immediate_retry] the recovery pass is the consultation, a
    sleep of 2 seconds and one more dispatch of the same step, whose result
    is the answer whether it succeeded or not. *)
Theorem C4_recovery_consulted_once (step : Step) (sr ctx : dict) (rs : list dict)
    (steps : list Step) (octx : option dict) (w : World E) :
  consultations (trace (execute_workflow_step clock step ctx w).2)
    = consultations (trace w) ∧
  consultations (trace (_handle_step_failure clock step sr ctx w).2)
    = S (consultations (trace w)) ∧
  consultations (trace (workflow_round clock step rs ctx w).2)
    ≤ S (consultations (trace w)) ∧
  consultations (trace (execute_workflow clock steps octx w).2)
    ≤ consultations (trace w) + length steps ∧
  ∀ e', generate_error_recovery_strategy
          (error_description_of sr) (workflow_context_of step) (ext w)
        = (Returns (Some "immediate_retry"), e') →
    let asked := after w (ERecovery (error_description_of sr) (workflow_context_of step)) e' in
    let slept := after asked (ESleep 2000) e' in
    _handle_step_failure clock step sr ctx w
    = ((step, (execute_workflow_step clock step ctx slept).1),
       (execute_workflow_step clock step ctx slept).2).
Proof.
  split; [apply quiet_step|].
  split; [apply handle_step_failure_consults|].
  split; [apply round_consults|].
  split.
  - unfold execute_workflow. rewrite bind_run.
    pose proof (loop_consults steps [] (default ∅ octx) w) as Hl.
    destruct (workflow_loop clock steps [] (default ∅ octx) w)
      as [[steps' [[rs' ctx']|msg]] w1]; done.
  - apply handle_immediate_retry.
Qed.

(** *** Wait steps *)

Lemma take_screenshot_run (w : World E) :
  ∃ (p : string) (ok : bool) (e' : E), _take_screenshot clock w
    = (if ok then p else EmptyString,
       {| ext := e'; reads := S (reads w); trace := trace w ++ [(EScreenshot p, ok)] |}).
Proof.
  unfold _take_screenshot. rewrite bind_run. unfold now. cbn [fst snd].
  rewrite bind_run. unfold call. cbn [ext reads trace].
  match goal with |- context [br_screenshot ?p (ext w)] =>
    destruct (br_screenshot p (ext w)) as [[[]|msg] e'] eqn:Hs; exists p end.
  - by exists true, e'.
  - by exists false, e'.
Qed.

Lemma wait_action_unknown cond ps t (w : World E) :
  ps.(type_) = Some t → t ≠ "time" → t ≠ "element" → t ≠ "text" →
  ∃ (p : string) (ok : bool) (e' : E), _wait_action clock cond ps w
    = (Py.mkdict [("success", PBool true);
                  ("data", PDict (Py.mkdict [("condition", PStr cond);
                                             ("wait_type", PStr t)]));
                  ("screenshot", PStr (if ok then p else EmptyString))],
       {| ext := e'; reads := S (reads w); trace := trace w ++ [(EScreenshot p, ok)] |}).
Proof.
  intros Ht Htime Helement Htext.
  destruct (take_screenshot_run w) as (p & ok & e' & Hs). exists p, ok, e'.
  unfold _wait_action. rewrite Ht. cbn [default from_option]. unfold id.
  apply String.eqb_neq in Htime, Helement, Htext. rewrite Htime, Helement, Htext.
  erewrite bind_eq by reflexivity. cbv iota.
  erewrite bind_eq by exact Hs. reflexivity.
Qed.

Lemma dispatch_wait step ctx r :
  step.(action_type) = "wait" →
  dispatch clock step ctx r = _wait_action clock step.(target) step.(parameters).
Proof. intros Ha. unfold dispatch. by rewrite Ha. Qed.

(** C10. A wait step whose [parameters.type] is none of ["time"],
    ["element"], ["text"] succeeds at once: the only calls of its dispatch
    are the two screenshots (the one of [_wait_action] and the one of
    [execute_workflow_step]); there is no sleep and no browser wait, and the
    timeout is not used. *)
Theorem C10_unknown_wait_type_succeeds (step : Step) (ctx : dict) (w : World E) (t : string) :
  step.(action_type) = "wait" →
  step.(parameters).(type_) = Some t →
  t ≠ "time" → t ≠ "element" → t ≠ "text" →
  let run := execute_workflow_step clock step ctx w in
  run.1 !! "success" = Some (PBool true) ∧
  run.1 !! "data"
    = Some (PDict (Py.mkdict [("condition", PStr step.(target)); ("wait_type", PStr t)])) ∧
  ∃ p1 ok1 p2 ok2,
    trace run.2 = trace w ++ [(EScreenshot p1, ok1); (EScreenshot p2, ok2)].
Proof.
  intros Ha Ht Htime Helement Htext. simpl.
  unfold execute_workflow_step.
  erewrite bind_eq by reflexivity.
  rewrite (dispatch_wait _ _ _ Ha).
  match goal with |- context [bind (_wait_action _ _ _) _ ?w0] =>
    destruct (wait_action_unknown step.(target) step.(parameters) t w0
                Ht Htime Helement Htext) as (p1 & ok1 & e1 & Hw) end.
  erewrite bind_eq by exact Hw.
  erewrite bind_eq by reflexivity.
  unfold Py.getitem. rewrite lookup_insert_ne by done.
  change (Py.mkdict _ !! "success") with (Some (PBool true)). cbn [Py.truthy].
  match goal with |- context [bind (_take_screenshot _) _ ?w1] =>
    destruct (take_screenshot_run w1) as (p2 & ok2 & e2 & Hs) end.
  erewrite bind_eq by exact Hs. cbn [ret fst snd trace].
  split; [by rewrite !lookup_insert_ne|].
  split; [by rewrite !lookup_insert_ne|].
  exists p1, ok1, p2, ok2. by rewrite <- app_assoc.
Qed.

(** *** Steps of an unknown action type *)

Lemma recognized_false a :
  recognized a = false →
  (a =? "navigate")%string = false ∧ (a =? "click")%string = false ∧
  (a =? "fill")%string = false ∧ (a =? "extract")%string = false ∧
  (a =? "wait")%string = false ∧ (a =? "conditional")%string = false.
Proof.
  unfold recognized. cbn [existsb]. intros Hr.
  repeat (apply orb_false_elim in Hr as [? Hr]). done.
Qed.

Lemma step_unknown step ctx (w : World E) :
  recognized step.(action_type) = false →
  execute_workflow_step clock step ctx w
  = (unknown_action_result clock step (reads w),
     {| ext := ext w; reads := S (S (reads w)); trace := trace w |}).
Proof.
  intros Hr. apply recognized_false in Hr as (Hn & Hc & Hf & He & Hw & Hx).
  unfold execute_workflow_step.
  erewrite bind_eq by reflexivity.
  unfold dispatch. rewrite Hn, Hc, Hf, He, Hw, Hx.
  erewrite bind_eq by reflexivity.
  erewrite bind_eq by reflexivity.
  unfold Py.getitem. rewrite !lookup_insert_ne by done.
  change (Py.mkdict _ !! "success") with (Some (PBool false)). reflexivity.
Qed.

Lemma unknown_action_error step k :
  error_description_of (unknown_action_result clock step k)
  = "Unknown action type: " +:+ step.(action_type).
Proof.
  unfold error_description_of, Py.get, unknown_action_result.
  rewrite lookup_insert_ne by done. by rewrite lookup_insert_eq.
Qed.

(** C8 (amended). A step of an unknown action type fails in the Dispatcher
    with the error ["Unknown action type: <type>"], without a call to the
    browser.  The Runner then handles it like every failed step: the recovery
    advisor is consulted once, and under [immediate_retry] the step is
    dispatched a second time (two more clock readings, after a sleep of 2
    seconds), fails again, and the loop breaks with the first result kept. *)
Theorem C8_unknown_action_fails_and_is_recovered (step : Step) (rs : list dict)
    (ctx : dict) (w : World E) :
  recognized step.(action_type) = false →
  let run := execute_workflow_step clock step ctx w in
  run.1 !! "success" = Some (PBool false) ∧
  run.1 !! "error" = Some (PStr ("Unknown action type: " +:+ step.(action_type))) ∧
  trace run.2 = trace w ∧ ext run.2 = ext w ∧
  consultations (trace (workflow_round clock step rs ctx w).2)
    = S (consultations (trace w)) ∧
  ∀ e', generate_error_recovery_strategy
          ("Unknown action type: " +:+ step.(action_type))
          (workflow_context_of step) (ext w)
        = (Returns (Some "immediate_retry"), e') →
    workflow_round clock step rs ctx w
    = ((step, Returns (rs ++ [run.1], ctx, false)),
       {| ext := e';
          reads := 4 + reads w;
          trace := trace w ++
            [(ERecovery ("Unknown action type: " +:+ step.(action_type))
                        (workflow_context_of step), true);
             (ESleep 2000, true)] |}).
Proof.
  intros Hr. cbn zeta. rewrite (step_unknown step ctx w Hr). cbn [fst snd ext trace].
  split; [unfold unknown_action_result; by rewrite !lookup_insert_ne|].
  split; [unfold unknown_action_result;
          rewrite lookup_insert_ne by done; by rewrite lookup_insert_eq|].
  split; [done|]. split; [done|].
  assert (Py.getitem (unknown_action_result clock step (reads w)) "success"
          = Returns (PBool false)) as Hok.
  { unfold Py.getitem, unknown_action_result. by rewrite !lookup_insert_ne. }
  split.
  - unfold workflow_round. erewrite bind_eq by (by apply step_unknown).
    rewrite Hok. cbn [Py.truthy negb]. rewrite bind_run.
    match goal with |- context [_handle_step_failure clock step ?sr ctx ?w1] =>
      pose proof (handle_step_failure_consults step sr ctx w1) as Hh;
      destruct (_handle_step_failure clock step sr ctx w1) as [[step' rr] w2] end.
    cbn [fst snd trace] in *. rewrite <- Hh.
    destruct (Py.getitem rr "success") as [v|msg]; [|done].
    by destruct (Py.truthy v).
  - intros e' Hadv.
    unfold workflow_round. erewrite bind_eq by (by apply step_unknown).
    rewrite Hok. cbn [Py.truthy negb].
    erewrite bind_eq; cycle 1.
    { rewrite handle_immediate_retry with (e' := e');
        [| by rewrite unknown_action_error].
      rewrite step_unknown by done. cbn [fst snd]. reflexivity. }
    cbn [after reads ext trace].
    assert (Py.getitem (unknown_action_result clock step (S (S (reads w)))) "success"
            = Returns (PBool false)) as ->.
    { unfold Py.getitem, unknown_action_result. by rewrite !lookup_insert_ne. }
    cbn [Py.truthy]. rewrite unknown_action_error. unfold ret.
    by rewrite <- app_assoc.
Qed.

(** *** No validation of the step numbers *)

(** C1 (amended). [execute_workflow] does not look at the step numbers
    before it starts: whatever they are, the first step of a list is
    dispatched, in the world the run starts in and with the context the run
    starts with, and the trace of the run continues the trace of that
    dispatch. *)
Theorem C1_first_step_is_dispatched (step : Step) (rest : list Step)
    (octx : option dict) (w : World E) :
  extends w (execute_workflow_step clock step (default ∅ octx) w).2 ∧
  extends (execute_workflow_step clock step (default ∅ octx) w).2
          (execute_workflow clock (step :: rest) octx w).2.
Proof.
  assert (∀ w1 : World E, extends w1 w1) as Hrefl.
  { intros w1. exists []. by rewrite app_nil_r. }
  assert (∀ w1 w2 w3 : World E, extends w1 w2 → extends w2 w3 → extends w1 w3) as Htrans.
  { intros w1 w2 w3 [d1 H1] [d2 H2]. exists (d1 ++ d2). by rewrite H2, H1, app_assoc. }
  assert (∀ (w1 : World E) e' ev ok, (λ _ : Event, true) ev = true →
            extends w1 {| ext := e'; reads := reads w1;
                          trace := trace w1 ++ [(ev, ok)] |}) as Hemit.
  { intros w1 e' ev ok _. by exists [(ev, ok)]. }
  assert (∀ w1 : World E,
            extends w1 {| ext := ext w1; reads := S (reads w1); trace := trace w1 |})
    as Hread.
  { intros w1. exists []. simpl. by rewrite app_nil_r. }
  split.
  - by apply (framed_step (λ _, true) extends Hrefl Htrans Hemit Hread).
  - eapply Htrans; [|eapply Htrans].
    + by apply (round_through_dispatch (λ _, true) extends Hrefl Htrans Hemit Hread).
    + by apply (loop_through_round (λ _, true) extends Hrefl Htrans Hemit Hread).
    + by apply (run_through_loop extends Hrefl).
Qed.

(** *** What enters the report after a recovery pass *)

Lemma dispatched_is_success r b :
  r !! "success" = Some (PBool b) →
  Py.getitem r "success" = Returns (PBool b) ∧ is_success r = b.
Proof. intros Hr. unfold Py.getitem, is_success. by rewrite Hr. Qed.

(** C6 (amended). No entry of [step_results] carries [recovery_attempted].
    In a round of the Runner whose dispatch failed, the entry of the step is
    the result of the recovery pass when that result is a success, and the
    result of the first dispatch otherwise (then the loop breaks); the record
    with [recovery_attempted] that a recovery pass without a successful
    dispatch answers with is a failure, so it never enters the report. *)
Theorem C6_report_entries_after_recovery (steps : list Step) (octx : option dict)
    (step : Step) (rs : list dict) (ctx : dict) (w : World E) :
  (∃ results : list dict,
     (execute_workflow clock steps octx w).1.1 !! "step_results"
       = Some (PList (PDict <$> results)) ∧
     Forall (λ r : dict, r !! "recovery_attempted" = None) results) ∧
  (let first := execute_workflow_step clock step ctx w in
   let pass := _handle_step_failure clock step first.1 ctx first.2 in
   (workflow_round clock step rs ctx w).1.2 =
     if is_success first.1 then
       match Py.getitem first.1 "data" with
       | Returns data =>
         Returns (rs ++ [first.1],
                  <["step_" +:+ Py.str_of_Z step.(step_number) +:+ "_result" := data]> ctx,
                  true)
       | Raises msg => Raises msg
       end
     else
       Returns (rs ++ [if is_success pass.1.2 then pass.1.2 else first.1],
                ctx, is_success pass.1.2)).
Proof.
  split.
  - unfold execute_workflow. rewrite bind_run.
    pose proof (loop_results steps [] (default ∅ octx) w (Forall_nil_2 _)) as Hlp.
    destruct (workflow_loop clock steps [] (default ∅ octx) w)
      as [[steps' [[results ctx']|msg]] w1]; cbn [fst snd ret] in *.
    + destruct Hlp as [Hrs _]. unfold build_report.
      destruct (count_successful results); [destruct (collect_screenshots results)|].
      * exists results. split; [done|]. eapply Forall_impl; [exact Hrs|]. by intros r [_ ?].
      * by exists [].
      * by exists [].
    + by exists [].
  - cbn zeta. unfold workflow_round. rewrite bind_run.
    pose proof (dispatched_step step ctx w) as [[b Hb] _].
    destruct (execute_workflow_step clock step ctx w) as [sr w1]. cbn [fst snd] in *.
    destruct (dispatched_is_success sr b Hb) as [-> ->]. cbn [Py.truthy].
    destruct b; cbn [negb].
    + by destruct (Py.getitem sr "data").
    + rewrite bind_run.
      pose proof (handled_step_failure step sr ctx w1) as Hrr.
      destruct (_handle_step_failure clock step sr ctx w1) as [[step' rr] w2].
      cbn [fst snd] in *.
      assert (∃ b', rr !! "success" = Some (PBool b')) as [b' Hb'].
      { destruct Hrr as [[? _]|?]; [done|by exists false]. }
      destruct (dispatched_is_success rr b' Hb') as [-> ->]. cbn [Py.truthy].
      destruct b'; cbn [ret fst snd]; [by rewrite replace_last|done].
Qed.

(** *** The Selector Resolver *)

Lemma settle_run ps (w1 : World E) :
  let wait_time := default 1000%Z ps.(wait_time) in
  let settle :=
    if (0 <? wait_time)%Z then sleep_millis wait_time else ret (Returns tt) in
  if click_settles ps
  then ∃ w2 d, settle w1 = (Returns tt, w2) ∧ trace w2 = trace w1 ++ d ∧ settles d
  else ∃ msg, settle w1 = (Raises msg, w1).
Proof.
  cbn zeta. unfold click_settles, sleep_millis.
  destruct (0 <? default 1000%Z ps.(wait_time))%Z; cbn [negb orb].
  - destruct (Py.truediv_1000 (default 1000%Z ps.(wait_time))) as [s|msg]; cbn [returned].
    + eexists _, [(ESleep _, true)]. split; [reflexivity|]. split; [done|].
      apply Forall_singleton. left. by eexists.
    + by exists msg.
  - exists w1, []. split; [done|]. split; [by rewrite app_nil_r|]. apply Forall_nil_2.
Qed.

Lemma click_loop_attempts sels ps other (w : World E) :
  let run := click_loop clock sels ps other w in
  (∃ pre sel post tail,
     sels = pre ++ sel :: post ∧
     trace run.2 = trace w ++ failed_clicks pre ++ (EClick sel, true) :: tail ∧
     settles tail ∧
     click_settles ps = true ∧
     run.1 !! "success" = Some (PBool true) ∧
     run.1 !! "data" = Some (clicked sel))
  ∨ (∃ w1 oks,
       length oks = length sels ∧
       trace w1 = trace w ++ attempted sels oks ∧
       (click_settles ps = false ∨ attempted sels oks = failed_clicks sels) ∧
       run = other w1).
Proof.
  revert w. induction sels as [|sel sels IH]; intros w; cbn zeta.
  - right. exists w, []. split; [done|]. split; [by rewrite app_nil_r|]. split; [by right|done].
  - cbn [click_loop].
    destruct (br_click sel (ext w)) as [[[]|msg] e'] eqn:Hclick.
    + set (w1 := {| ext := e'; reads := reads w;
                    trace := trace w ++ [(EClick sel, true)] |}).
      assert (call (EClick sel) (br_click sel) w = (Returns (), w1)) as Hcall.
      { unfold call. by rewrite Hclick. }
      erewrite bind_eq by exact Hcall. cbv beta iota zeta.
      pose proof (settle_run ps w1) as Hsettle. cbn zeta in Hsettle.
      destruct (click_settles ps) eqn:Hcs.
      * destruct Hsettle as (w2 & d & Hc & Hw2 & Hd).
        erewrite bind_eq by exact Hc. cbv beta iota.
        destruct (take_screenshot_run w2) as (p & ok & e2 & Hs).
        erewrite bind_eq by exact Hs. cbn [ret fst snd trace].
        left. exists [], sel, sels, (d ++ [(EScreenshot p, ok)]).
        split; [done|]. split.
        { rewrite Hw2. subst w1. cbn [trace failed_clicks fmap list_fmap app].
          by rewrite <- !app_assoc. }
        split; [|done].
        apply Forall_app. split; [done|]. apply Forall_singleton. right. by eexists.
      * destruct Hsettle as [msg Hc].
        erewrite bind_eq by exact Hc. cbv beta iota.
        destruct (IH w1) as [(pre & s & post & tail & _ & _ & _ & Hcs' & _)
                            |(w2 & oks & Hlen & Htr & _ & Hrun)]; [done|].
        right. exists w2, (true :: oks). split; [cbn [length]; by rewrite Hlen|].
        split; [|split; [by left|done]].
        rewrite Htr. subst w1. cbn [trace attempted zip_with]. by rewrite <- app_assoc.
    + set (w1 := {| ext := e'; reads := reads w;
                    trace := trace w ++ [(EClick sel, false)] |}).
      assert (call (EClick sel) (br_click sel) w = (Raises msg, w1)) as Hcall.
      { unfold call. by rewrite Hclick. }
      erewrite bind_eq by exact Hcall. cbv beta iota.
      destruct (IH w1) as [(pre & s & post & tail & Hsels & Htr & Htail & Hcs & Hok & Hdata)
                          |(w2 & oks & Hlen & Htr & Hall & Hrun)].
      * left. exists (sel :: pre), s, post, tail.
        split; [by rewrite Hsels|]. split; [|done].
        rewrite Htr. subst w1. cbn [trace]. by rewrite <- app_assoc.
      * right. exists w2, (false :: oks). split; [cbn [length]; by rewrite Hlen|].
        split; [|split; [|done]].
        -- rewrite Htr. subst w1. cbn [trace attempted zip_with]. by rewrite <- app_assoc.
        -- destruct Hall as [?|Heq]; [by left|right].
           cbn [attempted zip_with failed_clicks fmap list_fmap].
           unfold attempted, failed_clicks in Heq. by rewrite Heq.
Qed.

End Properties.

(** ** Replaying a step list under another clock *)

Section Replay.

Context {E : Type} `{Browser E} `{Advisor E} {Txt : Py.Text}.
Variables c1 c2 : nat → Z.

(** The capabilities do not look at the name of the screenshot file. *)
Hypothesis screenshot_any_path :
  ∀ p1 p2 (e : E), br_screenshot p1 e = br_screenshot p2 e.
Hypothesis analysis_any_path :
  ∀ p1 p2 task (e : E), analyze_screenshot p1 task e = analyze_screenshot p2 task e.

Lemma sim_ret {T} (RT : T → T → Prop) x y :
  RT x y → simulates (E:=E) RT (ret x) (ret y).
Proof. by intros HR w1 w2 Hw. Qed.

Lemma sim_bind {T U} (R1 : T → T → Prop) (RT : U → U → Prop)
    (a1 a2 : M T) (k1 k2 : T → M U) :
  simulates R1 a1 a2 → (∀ x y, R1 x y → simulates RT (k1 x) (k2 y)) →
  simulates (E:=E) RT (bind a1 k1) (bind a2 k2).
Proof.
  intros Ha Hk w1 w2 Hw. unfold bind.
  destruct (Ha w1 w2 Hw) as [Hx Hw'].
  destruct (a1 w1) as [x w1'], (a2 w2) as [y w2']. by apply Hk.
Qed.

Lemma sim_call {T} ev1 ev2 (op1 op2 : E → outcome T * E) :
  (∀ e, op1 e = op2 e) → simulates eq (call ev1 op1) (call ev2 op2).
Proof.
  intros Hop w1 w2 Hw. unfold call. rewrite Hw, Hop.
  by destruct (op2 (ext w2)).
Qed.

Lemma sim_sleep ms : simulates (E:=E) eq (sleep ms) (sleep ms).
Proof. by intros w1 w2 Hw. Qed.

Lemma sim_sleep_millis ms : simulates (E:=E) eq (sleep_millis ms) (sleep_millis ms).
Proof.
  unfold sleep_millis. destruct (Py.truediv_1000 ms); [|by apply sim_ret].
  eapply (sim_bind eq); [apply sim_sleep|]. intros ? ? _. by apply sim_ret.
Qed.

Lemma sim_now : simulates (E:=E) (λ _ _, True) (now c1) (now c2).
Proof. by intros w1 w2 Hw. Qed.

Lemma sim_screenshot :
  simulates (λ _ _, True) (_take_screenshot c1) (_take_screenshot c2).
Proof.
  unfold _take_screenshot.
  eapply sim_bind; [apply sim_now | intros t1 t2 _].
  eapply sim_bind; [apply sim_call; intros e; apply screenshot_any_path | intros r ? <-].
  destruct r; by apply sim_ret.
Qed.

Ltac sim_go :=
  repeat first
    [ apply sim_ret; reflexivity
    | apply sim_sleep
    | apply sim_sleep_millis
    | apply sim_call; intros ?; reflexivity
    | eapply sim_bind; [apply sim_screenshot | intros ? ? _]
    | eapply sim_bind; [apply sim_now | intros ? ? _]
    | eapply (sim_bind eq); [solve [sim_go] | intros ? ? <-]
    | case_match ].

Lemma sim_ai_click_loop desc s1 s2 els :
  simulates alike (ai_click_loop desc s1 els) (ai_click_loop desc s2 els).
Proof. induction els as [|el els IH]; simpl; sim_go; apply IH. Qed.

Lemma sim_ai_assisted_click desc ps :
  simulates alike (_ai_assisted_click c1 desc ps) (_ai_assisted_click c2 desc ps).
Proof.
  unfold _ai_assisted_click.
  eapply sim_bind; [apply sim_screenshot | intros s1 s2 _].
  eapply sim_bind; [apply sim_call; intros e; apply analysis_any_path | intros a ? <-].
  destruct a; [apply sim_ai_click_loop | by apply sim_ret].
Qed.

Lemma sim_click_loop sels ps o1 o2 :
  simulates alike o1 o2 →
  simulates alike (click_loop c1 sels ps o1) (click_loop c2 sels ps o2).
Proof. intros Ho. induction sels as [|sel sels IH]; simpl; [done|]. sim_go; apply IH. Qed.

Lemma sim_dispatch step ctx r :
  simulates alike (dispatch c1 step ctx r) (dispatch c2 step ctx r).
Proof.
  unfold dispatch. repeat case_match.
  - unfold _navigate_to_url. sim_go.
  - apply sim_click_loop, sim_ai_assisted_click.
  - unfold _fill_form. sim_go.
  - unfold _extract_data, browser_text. sim_go.
  - unfold _wait_action. sim_go.
  - unfold _execute_conditional. sim_go.
  - by apply sim_ret.
Qed.

(** Entries that are alike agree on every key but the two blanked ones, and
    have the blanked keys together. *)
Lemma alike_lookup r1 r2 k :
  alike r1 r2 → k ≠ "screenshot" → k ≠ "duration" → r1 !! k = r2 !! k.
Proof.
  intros Ha Hs Hd. apply (f_equal (λ m : dict, m !! k)) in Ha.
  unfold blank in Ha. by rewrite !lookup_alter_ne in Ha.
Qed.

Lemma alike_screenshot r1 r2 :
  alike r1 r2 →
  match r1 !! "screenshot", r2 !! "screenshot" with
  | Some _, Some _ | None, None => True
  | _, _ => False
  end.
Proof.
  intros Ha. apply (f_equal (λ m : dict, m !! "screenshot")) in Ha.
  unfold blank in Ha. rewrite !lookup_alter_eq, !lookup_alter_ne in Ha by done.
  by destruct (r1 !! "screenshot"), (r2 !! "screenshot").
Qed.

Lemma blank_insert_duration r v :
  blank (<["duration" := v]> r) = <["duration" := PNone]> (blank r).
Proof.
  apply map_eq. intros k. unfold blank.
  repeat first [rewrite lookup_alter | rewrite lookup_insert].
  repeat case_decide; simplify_eq; done.
Qed.

Lemma blank_insert_screenshot r v :
  blank (<["screenshot" := v]> r) = <["screenshot" := PNone]> (blank r).
Proof.
  apply map_eq. intros k. unfold blank.
  repeat first [rewrite lookup_alter | rewrite lookup_insert].
  repeat case_decide; simplify_eq; done.
Qed.

Lemma alike_getitem r1 r2 k :
  alike r1 r2 → k ≠ "screenshot" → k ≠ "duration" → Py.getitem r1 k = Py.getitem r2 k.
Proof. intros Ha Hs Hd. unfold Py.getitem. by rewrite (alike_lookup r1 r2 k). Qed.

Lemma sim_step step ctx :
  simulates alike (execute_workflow_step c1 step ctx) (execute_workflow_step c2 step ctx).
Proof.
  unfold execute_workflow_step.
  eapply sim_bind; [apply sim_now | intros t1 t2 _].
  eapply sim_bind; [apply sim_dispatch | intros r1 r2 Hr].
  eapply sim_bind; [apply sim_now | intros t1' t2' _].
  assert (alike (<["duration" := PFloat (t1' - t1)]> r1)
                (<["duration" := PFloat (t2' - t2)]> r2)) as Hd.
  { unfold alike. rewrite !blank_insert_duration. by rewrite Hr. }
  rewrite (alike_getitem _ _ "success" Hd) by done.
  destruct (Py.getitem _ "success") as [ok|msg]; [|by apply sim_ret].
  destruct (Py.truthy ok); [|by apply sim_ret].
  eapply sim_bind; [apply sim_screenshot | intros s1 s2 _].
  apply sim_ret. unfold alike. rewrite !blank_insert_screenshot. by rewrite Hd.
Qed.

Lemma sim_handle_step_failure step sr1 sr2 ctx :
  alike sr1 sr2 →
  simulates (λ p1 p2 : Step * dict, p1.1 = p2.1 ∧ alike p1.2 p2.2)
            (_handle_step_failure c1 step sr1 ctx) (_handle_step_failure c2 step sr2 ctx).
Proof.
  intros Hsr. unfold _handle_step_failure, Py.get.
  rewrite (alike_lookup sr1 sr2 "error" Hsr) by done.
  eapply (sim_bind eq); [apply sim_call; intros ?; reflexivity | intros s ? <-].
  repeat case_match;
    repeat first
      [ apply sim_ret; by split
      | eapply sim_bind; [apply sim_step | intros r1 r2 Hr]; apply sim_ret; by split
      | eapply (sim_bind eq); [apply sim_sleep | intros ? ? _] ].
Qed.

Lemma sim_round step rs1 rs2 ctx :
  Forall2 alike rs1 rs2 →
  simulates alike_rounds (workflow_round c1 step rs1 ctx) (workflow_round c2 step rs2 ctx).
Proof.
  intros Hrs. unfold workflow_round.
  eapply sim_bind; [apply sim_step | intros sr1 sr2 Hsr].
  rewrite (alike_getitem sr1 sr2 "success" Hsr) by done.
  rewrite (alike_getitem sr1 sr2 "data" Hsr) by done.
  assert (Forall2 alike (rs1 ++ [sr1]) (rs2 ++ [sr2])) as Hall.
  { apply Forall2_app; [done|]. by apply Forall2_cons. }
  destruct (Py.getitem sr2 "success") as [ok|msg]; [|by apply sim_ret].
  destruct (Py.truthy ok); cbn [negb].
  - destruct (Py.getitem sr2 "data"); by apply sim_ret.
  - eapply sim_bind; [by apply sim_handle_step_failure|].
    intros [s1 rr1] [s2 rr2] [Hs Hrr]. cbn [fst snd] in *. subst s2.
    rewrite (alike_getitem rr1 rr2 "success" Hrr) by done.
    destruct (Py.getitem rr2 "success") as [v|msg]; [|by apply sim_ret].
    destruct (Py.truthy v); apply sim_ret; (split; [done|]); cbn [snd]; [|done].
    rewrite !replace_last. split; [|done].
    apply Forall2_app; [done|]. by apply Forall2_cons.
Qed.

Lemma sim_loop steps rs1 rs2 ctx :
  Forall2 alike rs1 rs2 →
  simulates alike_loops (workflow_loop c1 steps rs1 ctx) (workflow_loop c2 steps rs2 ctx).
Proof.
  revert rs1 rs2 ctx. induction steps as [|s steps IH]; intros rs1 rs2 ctx Hrs; simpl.
  - by apply sim_ret.
  - eapply sim_bind; [by apply sim_round|].
    intros [s1 o1] [s2 o2] [Hs Ho]. cbn [fst snd] in *. subst s2.
    destruct o1 as [[[rs1' ctx1] go1]|m1], o2 as [[[rs2' ctx2] go2]|m2];
      try done; try (subst m2; by apply sim_ret).
    destruct Ho as (Hrs' & -> & ->). destruct go2.
    + eapply sim_bind; [by apply IH|].
      intros [l1 o1] [l2 o2] [Hl Ho]. cbn [fst snd] in *. subst l2.
      by apply sim_ret.
    + by apply sim_ret.
Qed.

Lemma alike_count_successful rs1 rs2 :
  Forall2 alike rs1 rs2 → count_successful rs1 = count_successful rs2.
Proof.
  induction 1 as [|r1 r2 rs1 rs2 Hr _ IH]; simpl; [done|].
  by rewrite (alike_getitem r1 r2 "success" Hr), IH.
Qed.

Lemma alike_collect_screenshots rs1 rs2 :
  Forall2 alike rs1 rs2 →
  match collect_screenshots rs1, collect_screenshots rs2 with
  | Returns _, Returns _ => True
  | Raises m1, Raises m2 => m1 = m2
  | _, _ => False
  end.
Proof.
  induction 1 as [|r1 r2 rs1 rs2 Hr _ IH]; simpl; [done|].
  apply alike_screenshot in Hr. unfold Py.getitem.
  destruct (r1 !! "screenshot"), (r2 !! "screenshot"); try done.
  by destruct (collect_screenshots rs1), (collect_screenshots rs2).
Qed.

Lemma alike_blank_entries rs1 rs2 :
  Forall2 alike rs1 rs2 →
  blank_entry <$> (PDict <$> rs1) = blank_entry <$> (PDict <$> rs2).
Proof.
  induction 1 as [|r1 r2 rs1 rs2 Hr _ IH]; [done|].
  rewrite !fmap_cons, IH. cbn [blank_entry]. unfold alike in Hr. by rewrite Hr.
Qed.

Lemma alike_build_report steps rs1 rs2 ctx :
  Forall2 alike rs1 rs2 →
  blank_report (build_report steps rs1 ctx) = blank_report (build_report steps rs2 ctx).
Proof.
  intros Hrs. unfold build_report.
  rewrite (alike_count_successful rs1 rs2 Hrs).
  rewrite (Forall2_length _ _ _ Hrs).
  pose proof (alike_collect_screenshots rs1 rs2 Hrs) as Hshots.
  pose proof (alike_blank_entries rs1 rs2 Hrs) as Hentries.
  destruct (count_successful rs2) as [n|msg]; [|done].
  destruct (collect_screenshots rs1) as [l1|m1], (collect_screenshots rs2) as [l2|m2];
    try done; [|by subst].
  apply map_eq. intros k. unfold blank_report.
  destruct (decide (k = "screenshots")) as [->|Hk1]; [by rewrite !lookup_alter_eq|].
  rewrite !(lookup_alter_ne _ _ "screenshots") by done.
  destruct (decide (k = "step_results")) as [->|Hk2].
  { rewrite !lookup_alter_eq.
    change (Py.mkdict [("workflow_success", PBool (n =? Z.of_nat (length rs2))%Z);
                      ("steps_completed", PInt n);
                      ("total_steps", PInt (Z.of_nat (length rs2)));
                      ("step_results", PList (PDict <$> rs1));
                      ("context", PDict ctx);
                      ("screenshots", PList l1)] !! "step_results")
      with (Some (PList (PDict <$> rs1))).
    change (Py.mkdict [("workflow_success", PBool (n =? Z.of_nat (length rs2))%Z);
                      ("steps_completed", PInt n);
                      ("total_steps", PInt (Z.of_nat (length rs2)));
                      ("step_results", PList (PDict <$> rs2));
                      ("context", PDict ctx);
                      ("screenshots", PList l2)] !! "step_results")
      with (Some (PList (PDict <$> rs2))).
    cbn [fmap option_fmap option_map]. by rewrite Hentries. }
  rewrite !lookup_alter_ne by done.
  unfold Py.mkdict. cbn [list_to_map foldr uncurry fst snd].
  rewrite !lookup_insert. repeat case_decide; simplify_eq; done.
Qed.

(** C9 (amended).  Two runs of the same step list from the same state of
    deterministic capabilities that do not look at the name of the
    screenshot file, under any two clocks, give reports with the same
    success flag and counts, the same step results up to their
    ["screenshot"] and ["duration"] entries, and the same context, and leave
    the same step list and the same state; the screenshot names and the
    durations are read off the wall clock. *)
Theorem C9_replay_agrees_up_to_clock (steps : list Step) (octx : option dict)
    (w1 w2 : World E) :
  ext w1 = ext w2 →
  let run1 := execute_workflow c1 steps octx w1 in
  let run2 := execute_workflow c2 steps octx w2 in
  blank_report run1.1.1 = blank_report run2.1.1 ∧
  run1.1.2 = run2.1.2 ∧
  ext run1.2 = ext run2.2.
Proof.
  intros Hw. cbn zeta.
  assert (simulates (λ p1 p2 : dict * list Step,
                       blank_report p1.1 = blank_report p2.1 ∧ p1.2 = p2.2)
                    (execute_workflow c1 steps octx) (execute_workflow c2 steps octx))
    as Hsim.
  { unfold execute_workflow.
    eapply sim_bind; [apply sim_loop; constructor|].
    intros [l1 o1] [l2 o2] [Hl Ho]. cbn [fst snd] in *. subst l2.
    destruct o1 as [[rs1 ctx1]|m1], o2 as [[rs2 ctx2]|m2];
      try done; try (subst m2; by apply sim_ret).
    destruct Ho as [Hrs ->]. apply sim_ret. split; [|done].
    by apply alike_build_report. }
  destruct (Hsim w1 w2 Hw) as [[Hrep Hsteps] Hext]. done.
Qed.

End Replay.

(** ** The engine on concrete inputs *)

Import Fake Scenario.

(** C1, as stated, fails: the list numbered 1, 2, 4 is not rejected; its
    three steps are dispatched and the report counts three of three. *)
Lemma C1_counterexample :
  contiguous steps_1_2_4 = false ∧
  let run := execute_workflow clock steps_1_2_4 None (start healthy) in
  ¬ rejected_up_front (start healthy) run ∧
  omap (λ e : Event * bool,
          match e.1 with EScreenshot _ => None | ev => Some ev end) (trace run.2)
    = [EGoto "https://x"; ESleep 3000; ETitle; EText "#result"; ESleep 10000] ∧
  run.1.1 !! "steps_completed" = Some (PInt 3) ∧
  run.1.1 !! "total_steps" = Some (PInt 3) ∧
  run.1.1 !! "workflow_success" = Some (PBool true).
Proof.
  split; [reflexivity|]. cbn zeta.
  split; [intros Hr; vm_compute in Hr; discriminate|].
  repeat split; vm_compute; reflexivity.
Qed.

(** C3, at the input where the code departs from it: step 2 of 3 is a click
    that fails and is not recovered.  The loop stops (nothing of step 3 is in
    the trace), but building the report raises [KeyError('screenshot')] on the
    failed entry, so the [except] branch answers: no step results,
    [steps_completed] 0 and [total_steps] 3. *)
Theorem C3_partial_results_are_lost :
  let run := execute_workflow clock three_steps None (start manual) in
  run.1.1 !! "workflow_success" = Some (PBool false) ∧
  run.1.1 !! "steps_completed" = Some (PInt 0) ∧
  run.1.1 !! "total_steps" = Some (PInt 3) ∧
  run.1.1 !! "step_results" = Some (PList []) ∧
  run.1.1 !! "error" = Some (PStr "'screenshot'") ∧
  omap (λ e : Event * bool,
          match e.1 with EScreenshot _ => None | ev => Some (ev, e.2) end) (trace run.2)
    = [(EGoto "https://x", true); (ESleep 3000, true); (ETitle, true);
       (EClick "#submit", false);
       (EAnalyze "screenshots/screenshot_19700101_000005.png"
                 "Find and click element: #submit", true);
       (ERecovery "AI could not find the specified element" "Step 2: ", true)].
Proof. cbn zeta. repeat split; vm_compute; reflexivity. Qed.

(** C5, at the input where the code departs from it: ["#a"] and ["#b"] are
    broken, ["#c"] works.  After the first dispatch failed on ["#a"], the
    recovery pass puts ["#b"] in the target, dispatches once and answers with
    that failure; ["#c"], which would succeed, is never tried, and the run
    fails. *)
Theorem C5_only_first_fallback_is_tried :
  let first := execute_workflow_step clock fill_step ∅ (start only_c_works) in
  let pass := _handle_step_failure clock fill_step first.1 ∅ first.2 in
  let run := execute_workflow clock [fill_step] None (start only_c_works) in
  first.1 !! "success" = Some (PBool false) ∧
  pass.1.1 = set_target fill_step "#b" ∧
  pass.1.2 !! "success" = Some (PBool false) ∧
  pass.1.2 !! "error" = Some (PStr "no such element: #b") ∧
  trace pass.2
    = [(EClear "#a", false);
       (ERecovery "no such element: #a" "Step 1: ", true);
       (EClear "#b", false)] ∧
  trace run.2 = trace pass.2 ∧
  run.1.1 !! "workflow_success" = Some (PBool false) ∧
  (execute_workflow_step clock (set_target fill_step "#c") ∅ pass.2).1
    !! "success" = Some (PBool true).
Proof. cbn zeta. repeat split; vm_compute; reflexivity. Qed.

(** C6, as stated, fails.  When the recovery pass succeeds (["#a"] broken,
    fallback ["#b"] works), the entry of the step has no
    [recovery_attempted].  When it fails (unknown action type, manual
    intervention), the entry is the result of the first dispatch, not what
    the recovery pass answered. *)
Lemma C6_counterexample :
  (let run := execute_workflow clock [fill_step] None (start only_a_broken) in
   run.1.1 !! "steps_completed" = Some (PInt 1) ∧
   length (step_results_of run.1.1) = 1 ∧
   ¬ Forall carries_recovery_attempted (step_results_of run.1.1)) ∧
  (let first := execute_workflow_step clock hover_step ∅ (start manual) in
   let pass := _handle_step_failure clock hover_step first.1 ∅ first.2 in
   let run := execute_workflow clock [hover_step] None (start manual) in
   pass.1.2 !! "error" = Some (PStr "Recovery failed: Unknown action type: hover") ∧
   step_results_of run.1.1 = [PDict first.1] ∧
   first.1 !! "error" = Some (PStr "Unknown action type: hover")).
Proof.
  split; cbn zeta.
  - split; [vm_compute; reflexivity|]. split; [vm_compute; reflexivity|].
    intros Hall. vm_compute in Hall. inversion Hall as [|? ? Hhead _]. discriminate.
  - repeat split; vm_compute; reflexivity.
Qed.

(** C7, as stated, fails: ["#a"] is the only candidate and its click raises;
    the AI-assisted search identifies ["#a"] again and the resolver clicks it
    a second time in the same call. *)
Lemma C7_counterexample :
  let run := _click_element clock "#a" no_params (start proposes_a_again) in
  clicks (trace run.2) = [("#a", false); ("#a", false)] ∧
  ¬ no_locator_twice (trace run.2).
Proof.
  cbn zeta. split; [vm_compute; reflexivity|].
  unfold no_locator_twice. intros Hnd. vm_compute in Hnd.
  inversion Hnd as [|? ? Hnotin _]. apply Hnotin. left.
Qed.

(** C8, as stated, fails: the step of unknown type is handed to the recovery
    pass, which consults the advisor and, on its advice, dispatches the step
    again (four clock readings, two for each dispatch). *)
Lemma C8_counterexample :
  recognized hover_step.(action_type) = false ∧
  let run := execute_workflow clock [hover_step] None (start retry) in
  consultations (trace run.2) = 1 ∧
  trace run.2
    = [(ERecovery "Unknown action type: hover" "Step 1: ", true); (ESleep 2000, true)] ∧
  reads run.2 = 4.
Proof. cbn zeta. repeat split; vm_compute; reflexivity. Qed.

(** C7 (amended).  One call of [_click_element] clicks the listed candidates,
    the primary locator and then the fallbacks, in order and each entry once,
    up to the first click that returns and whose settle wait can be computed;
    that click ends the call with a success that records its locator, after
    at most a settle sleep and a screenshot.  A click counts as failed when
    it raises, and also when it returned but [wait_time / 1000] raises (a
    [wait_time] too large for a float): the next candidate is clicked.  When
    every listed candidate has been clicked without a success, and only then,
    the AI-assisted search starts; it may click a locator again.  For the
    candidates ["#a"], ["#b"] with ["#a"] raising: two clicks, and ["#b"] is
    recorded.  With a [wait_time] of [10^400] both clicks return, none
    counts, and the AI-assisted search ends the call with a failure. *)
Theorem C7_listed_candidates_once_in_order :
  (∀ {E : Type} `{Browser E} `{Advisor E} `{Py.Text} (clock : nat → Z)
     (selector : string) (ps : Params) (w : World E),
     let candidates := selector :: default [] ps.(fallback_selectors) in
     let run := _click_element clock selector ps w in
     (∃ pre sel post tail,
        candidates = pre ++ sel :: post ∧
        trace run.2 = trace w ++ failed_clicks pre ++ (EClick sel, true) :: tail ∧
        settles tail ∧
        click_settles ps = true ∧
        run.1 !! "success" = Some (PBool true) ∧
        run.1 !! "data" = Some (clicked sel))
     ∨ (∃ w1 oks,
          length oks = length candidates ∧
          trace w1 = trace w ++ attempted candidates oks ∧
          (click_settles ps = false ∨ attempted candidates oks = failed_clicks candidates) ∧
          run = _ai_assisted_click clock selector ps w1)) ∧
  (let run := _click_element clock "#a" (with_fallbacks ["#b"]) (start only_a_broken) in
   clicks (trace run.2) = [("#a", false); ("#b", true)] ∧
   run.1 !! "data" = Some (clicked "#b")) ∧
  (let run := _click_element clock "#a" (huge_wait ["#b"]) (start healthy) in
   click_settles (huge_wait ["#b"]) = false ∧
   clicks (trace run.2) = [("#a", true); ("#b", true)] ∧
   run.1 = failure "AI could not find the specified element").
Proof.
  split; [|split].
  - intros E HB HA HT clk selector ps w. apply click_loop_attempts.
  - cbn zeta. split; vm_compute; reflexivity.
  - cbn zeta. repeat split; vm_compute; reflexivity.
Qed.

(** The hypothesis of C4 holds where the advisor recommends a retry. *)
Lemma C4_witness :
  let w := start retry in
  let sr := (execute_workflow_step clock hover_step ∅ w).1 in
  generate_error_recovery_strategy
    (error_description_of sr) (workflow_context_of hover_step) (ext w)
  = (Returns (Some "immediate_retry"), retry) ∧
  let asked := after w (ERecovery (error_description_of sr)
                                  (workflow_context_of hover_step)) retry in
  let slept := after asked (ESleep 2000) retry in
  _handle_step_failure clock hover_step sr ∅ w
  = ((hover_step, (execute_workflow_step clock hover_step ∅ slept).1),
     (execute_workflow_step clock hover_step ∅ slept).2).
Proof.
  cbn zeta. split; [reflexivity|].
  apply (C4_recovery_consulted_once clock hover_step
           (execute_workflow_step clock hover_step ∅ (start retry)).1 ∅ [] [] None
           (start retry)).
  reflexivity.
Defined.

(** The hypotheses of C8 hold for the hover step. *)
Lemma C8_witness :
  recognized hover_step.(action_type) = false ∧
  (execute_workflow_step clock hover_step ∅ (start retry)).1 !! "error"
    = Some (PStr ("Unknown action type: " +:+ hover_step.(action_type))) ∧
  consultations (trace (workflow_round clock hover_step [] ∅ (start retry)).2) = 1.
Proof.
  split; [reflexivity|].
  pose proof (C8_unknown_action_fails_and_is_recovered clock hover_step [] ∅
                (start retry) eq_refl) as (_ & Herr & _ & _ & Hcons & _).
  split; [exact Herr | exact Hcons].
Defined.

(** The hypotheses of C10 hold for a wait step of type ["visible"]. *)
Lemma C10_witness :
  wait_visible.(action_type) = "wait" ∧
  wait_visible.(parameters).(type_) = Some "visible" ∧
  "visible" ≠ "time" ∧ "visible" ≠ "element" ∧ "visible" ≠ "text" ∧
  (execute_workflow_step clock wait_visible ∅ (start healthy)).1 !! "success"
    = Some (PBool true).
Proof.
  repeat (split; [first [reflexivity | discriminate]|]).
  apply (C10_unknown_wait_type_succeeds clock wait_visible ∅ (start healthy) "visible");
    first [reflexivity | discriminate].
Defined.

(** C9, as stated, fails.  The same navigate step against the same healthy
    capabilities under two clocks: the screenshot names and the duration
    differ, so the reports differ.  And under one clock: the first run of
    [fill_step] recovers by overwriting the target with ["#b"]; run again,
    the list the first run left succeeds at once and, unlike the first run,
    records the step in the context. *)
Lemma C9_counterexample :
  (let steps := [mkstep 1 "navigate" "https://x" no_params] in
   let run1 := execute_workflow (ticking 1000000) steps None (start healthy) in
   let run2 := execute_workflow (ticking 2000000) steps None (start healthy) in
   run1.1.1 !! "screenshots"
     = Some (PList [PStr "screenshots/screenshot_19700101_000003.png"]) ∧
   run2.1.1 !! "screenshots"
     = Some (PList [PStr "screenshots/screenshot_19700101_000006.png"]) ∧
   run1.1.1 ≠ run2.1.1) ∧
  (let run1 := execute_workflow clock [fill_step] None (start only_a_broken) in
   let run2 := execute_workflow clock run1.1.2 None (start only_a_broken) in
   run1.1.2 = [set_target fill_step "#b"] ∧
   run1.1.1 !! "context" = Some (PDict ∅) ∧
   run2.1.1 !! "context" ≠ Some (PDict ∅) ∧
   run1.1.1 ≠ run2.1.1).
Proof.
  split; cbn zeta.
  - split; [vm_compute; reflexivity|]. split; [vm_compute; reflexivity|].
    intros Heq. apply (f_equal (λ m : dict, m !! "screenshots")) in Heq.
    vm_compute in Heq. discriminate.
  - split; [vm_compute; reflexivity|]. split; [vm_compute; reflexivity|].
    split.
    + intros Heq. vm_compute in Heq. discriminate.
    + intros Heq. apply (f_equal (λ m : dict, m !! "context")) in Heq.
      vm_compute in Heq. discriminate.
Qed.

(** The hypotheses of C9 hold for the fake capabilities, which ignore the
    name of the screenshot file. *)
Lemma C9_witness :
  (∀ p1 p2 (e : Env), br_screenshot p1 e = br_screenshot p2 e) ∧
  (∀ p1 p2 task (e : Env), analyze_screenshot p1 task e = analyze_screenshot p2 task e) ∧
  let run1 := execute_workflow (ticking 1000000) three_steps None (start manual) in
  let run2 := execute_workflow (ticking 2000000) three_steps None (start manual) in
  blank_report run1.1.1 = blank_report run2.1.1 ∧
  run1.1.2 = run2.1.2 ∧
  ext run1.2 = ext run2.2.
Proof.
  split; [intros; reflexivity|]. split; [intros; reflexivity|].
  apply (C9_replay_agrees_up_to_clock (ticking 1000000) (ticking 2000000)).
  - intros; reflexivity.
  - intros; reflexivity.
  - reflexivity.
Defined.

(** ** Further properties of the engine *)

Section Further.

Context {E : Type} `{Browser E} `{Advisor E} {Txt : Py.Text}.
Variable clock : nat → Z.

(** *** The forms of a step result *)

Lemma failed_failure msg : failed (failure msg).
Proof. repeat split; by eauto. Qed.

Ltac form_auto :=
  repeat first
    [ apply yields_ret; first
        [ right; apply failed_failure
        | left; repeat split; by eauto ]
    | eapply yields_bind; [apply yields_any | intros ? _]
    | case_match ].

Lemma form_ai_click_loop desc shot els :
  yields (E:=E) (λ r, succeeded r ∨ failed r) (ai_click_loop desc shot els).
Proof. induction els as [|el els IH]; simpl; form_auto; apply IH. Qed.

Lemma form_ai_assisted_click desc ps :
  yields (λ r, succeeded r ∨ failed r) (_ai_assisted_click clock desc ps).
Proof. unfold _ai_assisted_click. form_auto. apply form_ai_click_loop. Qed.

Lemma form_click_loop sels ps other :
  yields (λ r, succeeded r ∨ failed r) other →
  yields (λ r, succeeded r ∨ failed r) (click_loop clock sels ps other).
Proof. intros Ho. induction sels as [|sel sels IH]; simpl; [done|]. form_auto; apply IH. Qed.

Lemma form_dispatch step ctx r :
  recognized step.(action_type) = true →
  yields (λ r, succeeded r ∨ failed r) (dispatch clock step ctx r).
Proof.
  intros Hr. unfold dispatch. repeat case_match.
  - unfold _navigate_to_url. form_auto.
  - apply form_click_loop, form_ai_assisted_click.
  - unfold _fill_form. form_auto.
  - unfold _extract_data, browser_text. form_auto.
  - unfold _wait_action. form_auto.
  - unfold _execute_conditional. form_auto.
  - unfold recognized in Hr. cbn [existsb] in Hr.
    repeat match goal with Hf : (_ =? _)%string = false |- _ => rewrite Hf in Hr end.
    done.
Qed.

(** The result of a step of a recognized action type *)
Lemma step_forms step ctx :
  recognized step.(action_type) = true →
  yields (λ r : dict,
    (∃ d, r !! "duration" = Some (PFloat d)) ∧
    r !! "step_number" = None ∧ r !! "action_type" = None ∧
    ((r !! "success" = Some (PBool true) ∧ is_Some (r !! "data") ∧
      (∃ shot, r !! "screenshot" = Some (PStr shot)) ∧ r !! "error" = None)
     ∨ (r !! "success" = Some (PBool false) ∧ (∃ msg, r !! "error" = Some (PStr msg)) ∧
        r !! "data" = None ∧ r !! "screenshot" = None)))
    (execute_workflow_step clock step ctx).
Proof.
  intros Hr.
  unfold execute_workflow_step.
  eapply yields_bind; [apply yields_any | intros t0 _].
  eapply yields_bind; [by apply form_dispatch | intros r Hform].
  eapply yields_bind; [apply yields_any | intros t1 _].
  unfold Py.getitem. rewrite lookup_insert_ne by done.
  destruct Hform as [(Hs & Hd & Hshot & He & Hn & Ha)|(Hs & He & Hd & Hshot & Hn & Ha)];
    rewrite Hs; cbn [Py.truthy].
  - eapply yields_bind; [apply yields_any | intros shot _]. apply yields_ret.
    split; [eexists; by rewrite lookup_insert_ne, lookup_insert_eq|].
    split; [by rewrite !lookup_insert_ne|]. split; [by rewrite !lookup_insert_ne|].
    left. split; [by rewrite !lookup_insert_ne|]. split; [by rewrite !lookup_insert_ne|].
    split; [eexists; by rewrite lookup_insert_eq | by rewrite !lookup_insert_ne].
  - apply yields_ret.
    split; [eexists; by rewrite lookup_insert_eq|].
    split; [by rewrite !lookup_insert_ne|]. split; [by rewrite !lookup_insert_ne|].
    right. repeat split; by rewrite !lookup_insert_ne.
Qed.

Lemma step_result_entries (step : Step) (ctx : dict) (w : World E) :
  let r := (execute_workflow_step clock step ctx w).1 in
  (∃ d, r !! "duration" = Some (PFloat d)) ∧
  if is_success r
  then is_Some (r !! "data") ∧ ∃ shot, r !! "screenshot" = Some (PStr shot)
  else ∃ msg, r !! "error" = Some (PStr msg).
Proof.
  cbn zeta. destruct (recognized step.(action_type)) eqn:Hr.
  - destruct (step_forms step ctx Hr w)
      as (Hd & _ & _ & [(Hs & Hdata & Hshot & _)|(Hs & He & _)]);
      (split; [done|]); unfold is_success; rewrite Hs; by cbn [Py.truthy].
  - rewrite (step_unknown clock step ctx w Hr). cbn [fst].
    unfold is_success, unknown_action_result.
    split; [eexists; by rewrite lookup_insert_eq|].
    rewrite !(lookup_insert_ne _ _ "success") by done.
    change (Py.mkdict _ !! "success") with (Some (PBool false)). cbn [Py.truthy].
    eexists. rewrite lookup_insert_ne by done. by rewrite lookup_insert_eq.
Qed.

Lemma step_result_keys (step : Step) (ctx : dict) (w : World E) :
  let r := (execute_workflow_step clock step ctx w).1 in
  if recognized step.(action_type)
  then r !! "step_number" = None ∧ r !! "action_type" = None ∧
       (is_success r = true ∨ (r !! "screenshot" = None ∧ r !! "data" = None))
  else r !! "step_number" = Some (PInt step.(step_number)) ∧
       r !! "action_type" = Some (PStr step.(action_type)) ∧
       r !! "screenshot" = Some PNone ∧ r !! "data" = Some PNone ∧
       is_success r = false.
Proof.
  cbn zeta. destruct (recognized step.(action_type)) eqn:Hr.
  - destruct (step_forms step ctx Hr w)
      as (_ & Hn & Ha & [(Hs & _)|(Hs & _ & Hdata & Hshot)]);
      (split; [done|]); (split; [done|]).
    + left. unfold is_success. by rewrite Hs.
    + by right.
  - rewrite (step_unknown clock step ctx w Hr). cbn [fst].
    unfold is_success, unknown_action_result.
    rewrite !(lookup_insert_ne _ "duration"), !(lookup_insert_ne _ "error") by done.
    done.
Qed.

(** X1. Every step result has a ["duration"]; a successful one has
    ["data"] and a ["screenshot"] that is a string, an unsuccessful one has
    an ["error"] that is a string. *)
Theorem X1_step_result_entries (step : Step) (ctx : dict) (w : World E) :
  let r := (execute_workflow_step clock step ctx w).1 in
  (∃ d, r !! "duration" = Some (PFloat d)) ∧
  if is_success r
  then is_Some (r !! "data") ∧ ∃ shot, r !! "screenshot" = Some (PStr shot)
  else ∃ msg, r !! "error" = Some (PStr msg).
Proof. apply step_result_entries. Qed.

(** X2. The result of a step of a recognized action type is the dictionary
    of its helper: it has no ["step_number"] and no ["action_type"], and when
    it is a failure it has no ["screenshot"] and no ["data"] either.  The
    result of a step of an unknown type keeps the prepared dictionary, with
    the step's number and type and [None] for ["screenshot"] and ["data"]. *)
Theorem X2_step_result_keys (step : Step) (ctx : dict) (w : World E) :
  let r := (execute_workflow_step clock step ctx w).1 in
  if recognized step.(action_type)
  then r !! "step_number" = None ∧ r !! "action_type" = None ∧
       (is_success r = true ∨ (r !! "screenshot" = None ∧ r !! "data" = None))
  else r !! "step_number" = Some (PInt step.(step_number)) ∧
       r !! "action_type" = Some (PStr step.(action_type)) ∧
       r !! "screenshot" = Some PNone ∧ r !! "data" = Some PNone ∧
       is_success r = false.
Proof. apply step_result_keys. Qed.

(** *** Rounds and runs *)

Lemma round_outcome step rs ctx (w : World E) :
  let first := execute_workflow_step clock step ctx w in
  let pass := _handle_step_failure clock step first.1 ctx first.2 in
  (workflow_round clock step rs ctx w).1.2 =
    if is_success first.1 then
      match Py.getitem first.1 "data" with
      | Returns data => Returns (rs ++ [first.1], <[context_key step := data]> ctx, true)
      | Raises msg => Raises msg
      end
    else
      Returns (rs ++ [if is_success pass.1.2 then pass.1.2 else first.1],
               ctx, is_success pass.1.2).
Proof.
  cbn zeta. unfold workflow_round. rewrite bind_run.
  pose proof (dispatched_step clock step ctx w) as [[b Hb] _].
  destruct (execute_workflow_step clock step ctx w) as [sr w1]. cbn [fst snd] in *.
  destruct (dispatched_is_success sr b Hb) as [-> ->]. cbn [Py.truthy].
  destruct b; cbn [negb].
  + by destruct (Py.getitem sr "data").
  + rewrite bind_run.
    pose proof (handled_step_failure clock step sr ctx w1) as Hrr.
    destruct (_handle_step_failure clock step sr ctx w1) as [[step' rr] w2].
    cbn [fst snd] in *.
    assert (∃ b', rr !! "success" = Some (PBool b')) as [b' Hb'].
    { destruct Hrr as [[? _]|?]; [done|by exists false]. }
    destruct (dispatched_is_success rr b' Hb') as [-> ->]. cbn [Py.truthy].
    destruct b'; cbn [ret fst snd]; [by rewrite replace_last|done].
Qed.

Lemma round_entry step rs ctx (w : World E) :
  match (workflow_round clock step rs ctx w).1.2 with
  | Returns (rs', ctx', go) =>
    ∃ x, rs' = rs ++ [x] ∧ is_success x = go ∧
         (ctx' = ctx ∨ ∃ data, ctx' = <[context_key step := data]> ctx) ∧
         (go = false →
          x !! "screenshot" = None ∨
          x !! "error" = Some (PStr ("Unknown action type: " +:+ step.(action_type))))
  | Raises _ => True
  end.
Proof.
  rewrite round_outcome.
  pose proof (step_result_keys step ctx w) as Hkeys. cbn zeta in Hkeys.
  destruct (is_success (execute_workflow_step clock step ctx w).1) eqn:Hok.
  - destruct (Py.getitem _ "data") as [data|msg]; [|done].
    eexists. split; [done|]. split; [done|]. split; [right; by eexists|done].
  - match goal with |- context [is_success ?rr] => destruct (is_success rr) eqn:Hrr end.
    + eexists. split; [done|]. split; [done|]. split; [by left|done].
    + eexists. split; [done|]. split; [done|]. split; [by left|]. intros _.
      destruct (recognized step.(action_type)) eqn:Hr.
      * left. destruct Hkeys as (_ & _ & [?|[? _]]); [congruence|done].
      * right. rewrite (step_unknown clock step ctx w Hr). cbn [fst].
        unfold unknown_action_result. rewrite lookup_insert_ne by done.
        by rewrite lookup_insert_eq.
Qed.

Lemma loop_entries steps rs ctx (w : World E) :
  Forall (λ r, is_success r = true) rs →
  match (workflow_loop clock steps rs ctx w).1.2 with
  | Returns (rs', ctx') =>
    (Forall (λ r, is_success r = true) rs' ∧ length rs' = length rs + length steps)
    ∨ (∃ init x, rs' = init ++ [x] ∧ Forall (λ r, is_success r = true) init ∧
         is_success x = false ∧ length rs' ≤ length rs + length steps ∧
         (x !! "screenshot" = None ∨
          ∃ a, x !! "error" = Some (PStr ("Unknown action type: " +:+ a))))
  | Raises _ => True
  end.
Proof.
  revert rs ctx w. induction steps as [|s steps IH]; intros rs ctx w Hrs; cbn [workflow_loop].
  - left. split; [done|]. cbn [ret fst snd length]. lia.
  - rewrite bind_run. pose proof (round_entry s rs ctx w) as Hrd.
    destruct (workflow_round clock s rs ctx w) as [[s' [[[rs1 ctx1] go]|msg]] w1];
      cbn [fst snd] in *; [|done].
    destruct Hrd as (x & -> & Hx & _ & Hbreak). destruct go.
    + rewrite bind_run. cbn [ret fst snd].
      assert (Forall (λ r, is_success r = true) (rs ++ [x])) as Hall.
      { apply Forall_app. split; [done|]. by apply Forall_singleton. }
      specialize (IH (rs ++ [x]) ctx1 w1 Hall).
      destruct (workflow_loop clock steps (rs ++ [x]) ctx1 w1)
        as [[steps' [[rs2 ctx2]|msg]] w2]; cbn [fst snd] in *; [|done].
      rewrite length_app in IH. cbn [length] in *.
      destruct IH as [[Hall2 Hlen]|(init & y & -> & Hinit & Hy & Hlen & Hform)].
      * left. split; [done|lia].
      * right. exists init, y. repeat split; try done. lia.
    + right. exists rs, x. cbn [ret fst snd]. repeat split; try done.
      * rewrite length_app. cbn [length]. lia.
      * destruct (Hbreak eq_refl) as [?|?]; [by left|right; by eexists].
Qed.

Lemma successes_all rs :
  Forall (λ r, is_success r = true) rs → successes rs = Z.of_nat (length rs).
Proof.
  unfold successes. induction 1 as [|r rs Hr _ IH]; [done|].
  cbn [List.filter length]. rewrite Hr. cbn [length]. lia.
Qed.

Lemma successes_snoc rs x :
  successes (rs ++ [x]) = (successes rs + if is_success x then 1 else 0)%Z.
Proof.
  unfold successes. rewrite List.filter_app, length_app. cbn [List.filter].
  destruct (is_success x); cbn [length]; lia.
Qed.

(** The report of a run, from what its loop answered *)
Lemma run_report steps octx (w : World E) :
  (execute_workflow clock steps octx w).1.1 =
    match (workflow_loop clock steps [] (default ∅ octx) w).1.2 with
    | Returns (rs, ctx) => build_report steps rs ctx
    | Raises msg => error_report steps msg
    end.
Proof.
  unfold execute_workflow. rewrite bind_run.
  by destruct (workflow_loop clock steps [] (default ∅ octx) w) as [[? [[??]|?]] ?].
Qed.

Lemma build_report_normal steps rs ctx :
  Forall dispatched rs →
  (∃ msg, build_report steps rs ctx = error_report steps msg)
  ∨ (∃ shots, collect_screenshots rs = Returns shots ∧
       build_report steps rs ctx =
         Py.mkdict [("workflow_success", PBool (successes rs =? Z.of_nat (length rs))%Z);
                    ("steps_completed", PInt (successes rs));
                    ("total_steps", PInt (Z.of_nat (length rs)));
                    ("step_results", PList (PDict <$> rs));
                    ("context", PDict ctx);
                    ("screenshots", PList shots)]).
Proof.
  intros Hrs. unfold build_report. rewrite (count_successful_dispatched rs Hrs).
  destruct (collect_screenshots rs) as [shots|msg]; [right|left]; by eexists.
Qed.

Lemma collected_have_screenshot rs shots :
  collect_screenshots rs = Returns shots → Forall (λ r : dict, is_Some (r !! "screenshot")) rs.
Proof.
  revert shots. induction rs as [|r rs IH]; intros shots Hc; [done|].
  cbn [collect_screenshots] in Hc. unfold Py.getitem in Hc.
  destruct (r !! "screenshot") as [v|] eqn:Hv; [|done].
  destruct (collect_screenshots rs) as [shots'|]; [|done].
  apply Forall_cons. split; [by eexists|by eapply IH].
Qed.

Lemma loop_context steps rs ctx (w : World E) k :
  (∀ s, s ∈ steps → k ≠ context_key s) →
  match (workflow_loop clock steps rs ctx w).1.2 with
  | Returns (_, ctx') => ctx' !! k = ctx !! k
  | Raises _ => True
  end.
Proof.
  revert rs ctx w. induction steps as [|s steps IH]; intros rs ctx w Hk; cbn [workflow_loop].
  - done.
  - rewrite bind_run. pose proof (round_entry s rs ctx w) as Hrd.
    destruct (workflow_round clock s rs ctx w) as [[s' [[[rs1 ctx1] go]|msg]] w1];
      cbn [fst snd] in *; [|done].
    destruct Hrd as (x & _ & _ & Hctx & _).
    assert (ctx1 !! k = ctx !! k) as Hone.
    { destruct Hctx as [->|[data ->]]; [done|].
      apply lookup_insert_ne. intros Heq. by apply (Hk s); [left|]. }
    destruct go; [|done].
    rewrite bind_run. cbn [ret fst snd].
    assert (∀ s0, s0 ∈ steps → k ≠ context_key s0) as Hk' by (intros s0 Hs0; apply Hk; by right).
    specialize (IH rs1 ctx1 w1 Hk').
    destruct (workflow_loop clock steps rs1 ctx1 w1) as [[steps' [[rs2 ctx2]|msg]] w2];
      cbn [fst snd] in *; [|done].
    by rewrite IH.
Qed.

Lemma retargeted_handle step sr ctx :
  yields (λ p : Step * dict, retargeted step p.1) (_handle_step_failure clock step sr ctx).
Proof.
  unfold _handle_step_failure.
  eapply yields_bind; [apply yields_any | intros s _].
  repeat case_match;
    repeat first
      [ apply yields_ret; by left
      | apply yields_ret; right; eexists; split; [|done];
        match goal with Hf : default [] _ = _ :: _ |- _ => by rewrite Hf end
      | eapply yields_bind; [apply yields_any | intros ? _] ].
Qed.

Lemma retargeted_round step rs ctx :
  yields (λ p : Step * outcome (list dict * dict * bool), retargeted step p.1)
         (workflow_round clock step rs ctx).
Proof.
  unfold workflow_round.
  eapply yields_bind; [apply yields_any | intros sr _].
  repeat case_match;
    repeat first
      [ apply yields_ret; by left
      | eapply yields_bind; [apply retargeted_handle | intros [s' rr] Hs'] ];
    repeat case_match; by apply yields_ret.
Qed.

Lemma retargeted_loop steps rs ctx :
  yields (λ p : list Step * outcome (list dict * dict), Forall2 retargeted steps p.1)
         (workflow_loop clock steps rs ctx).
Proof.
  revert rs ctx. induction steps as [|s steps IH]; intros rs ctx; cbn [workflow_loop].
  - by apply yields_ret.
  - eapply yields_bind; [apply retargeted_round|].
    intros [s' [[[rs1 ctx1] [|]]|msg]] Hs'; cbn [fst] in Hs'.
    + eapply yields_bind; [apply IH | intros [steps' o] Hsteps].
      apply yields_ret. by constructor.
    + apply yields_ret. constructor; [done|].
      apply Forall_Forall2_diag, Forall_forall. intros; by left.
    + apply yields_ret. constructor; [done|].
      apply Forall_Forall2_diag, Forall_forall. intros; by left.
Qed.

Lemma loop_prefix steps rs ctx (w : World E) :
  match workflow_loop clock steps rs ctx w with
  | ((steps', Returns (rs', ctx')), w') =>
    length rs ≤ length rs' ∧
    workflow_loop clock (take (length rs' - length rs) steps) rs ctx w
    = ((take (length rs' - length rs) steps', Returns (rs', ctx')), w')
  | _ => True
  end.
Proof.
  revert rs ctx w. induction steps as [|s steps IH]; intros rs ctx w; cbn [workflow_loop].
  - cbn [ret]. split; [done|]. by rewrite !take_nil.
  - unfold bind at 1.
    pose proof (round_entry s rs ctx w) as Hrd.
    destruct (workflow_round clock s rs ctx w) as [[s' [[[rs1 ctx1] go]|msg]] w1] eqn:Hround;
      cbn [fst snd] in *; [|done].
    destruct Hrd as (x & -> & _). destruct go.
    + unfold bind at 1. specialize (IH (rs ++ [x]) ctx1 w1).
      destruct (workflow_loop clock steps (rs ++ [x]) ctx1 w1)
        as [[steps' [[rs2 ctx2]|msg]] w2] eqn:Hloop; cbn [ret fst snd]; [|done].
      destruct IH as [Hlen IH]. rewrite length_app in Hlen, IH. cbn [length] in Hlen, IH.
      split; [lia|].
      replace (length rs2 - length rs) with (S (length rs2 - (length rs + 1))) by lia.
      cbn [take workflow_loop]. erewrite bind_eq by exact Hround. cbv beta iota.
      erewrite bind_eq by exact IH. done.
    + cbn [ret]. rewrite length_app. cbn [length]. split; [lia|].
      replace (length rs + 1 - length rs) with 1 by lia.
      cbn [take workflow_loop]. erewrite bind_eq by exact Hround. cbv beta iota.
      by rewrite !take_0.
Qed.

(** What a run answers: the report of the [except] branch, or the normal
    report over results that are successes up to, possibly, the last. *)
Lemma run_cases steps octx (w : World E) :
  let run := execute_workflow clock steps octx w in
  (∃ msg, steps ≠ [] ∧ run.1.1 = error_report steps msg)
  ∨ (∃ rs ctx shots,
       (workflow_loop clock steps [] (default ∅ octx) w).1.2 = Returns (rs, ctx) ∧
       collect_screenshots rs = Returns shots ∧
       run.1.1 =
         Py.mkdict [("workflow_success", PBool (successes rs =? Z.of_nat (length rs))%Z);
                    ("steps_completed", PInt (successes rs));
                    ("total_steps", PInt (Z.of_nat (length rs)));
                    ("step_results", PList (PDict <$> rs));
                    ("context", PDict ctx);
                    ("screenshots", PList shots)]).
Proof.
  cbn zeta. rewrite run_report.
  pose proof (loop_results clock steps [] (default ∅ octx) w (Forall_nil_2 _)) as Hres.
  destruct (workflow_loop clock steps [] (default ∅ octx) w).1.2 as [[rs ctx]|msg] eqn:Hloop.
  - destruct Hres as [Hdisp Hnil].
    destruct (build_report_normal steps rs ctx Hdisp) as [[msg Hrep]|(shots & Hshots & Hrep)].
    + left. exists msg. split; [|done]. intros ->. rewrite Hnil in Hrep by done. done.
    + right. by exists rs, ctx, shots.
  - left. by exists msg.
Qed.

(** X3. A report that says [workflow_success] is the report of a run that
    went through the whole list: it is not the report of the [except]
    branch, it has one successful entry for each step of the list, and
    [steps_completed] and [total_steps] are both the length of the list. *)
Theorem X3_success_means_every_step_ran (steps : list Step) (octx : option dict)
    (w : World E) :
  let report := (execute_workflow clock steps octx w).1.1 in
  report !! "workflow_success" = Some (PBool true) →
  report !! "error" = None ∧
  report !! "steps_completed" = Some (PInt (Z.of_nat (length steps))) ∧
  report !! "total_steps" = Some (PInt (Z.of_nat (length steps))) ∧
  ∃ results, report !! "step_results" = Some (PList (PDict <$> results)) ∧
             length results = length steps ∧
             Forall (λ r, is_success r = true) results.
Proof.
  cbn zeta. intros Hok.
  destruct (run_cases steps octx w) as [(msg & _ & Hrep)|(rs & ctx & shots & Hloop & _ & Hrep)];
    rewrite Hrep in Hok |- *; [done|].
  assert (successes rs = Z.of_nat (length rs)) as Hall.
  { apply Z.eqb_eq. by injection Hok. }
  pose proof (loop_entries steps [] (default ∅ octx) w (Forall_nil_2 _)) as Hent.
  rewrite Hloop in Hent.
  destruct Hent as [[Hsucc Hlen]|(init & x & -> & Hinit & Hx & _)].
  - cbn [length] in Hlen. rewrite Hall, Hlen. split; [done|]. split; [done|].
    split; [done|]. by exists rs.
  - rewrite successes_snoc, Hx, length_app in Hall. cbn [length] in Hall.
    pose proof (successes_bound init). lia.
Qed.

(** X4. In a report that is not the report of the [except] branch, only the
    last step result can be a failure, and it is then the failure of a step
    of an unknown action type: every other failure that ends a run has no
    ["screenshot"] entry, which makes the report of the [except] branch. *)
Theorem X4_only_an_unknown_action_fails_in_a_report (steps : list Step)
    (octx : option dict) (w : World E) :
  let report := (execute_workflow clock steps octx w).1.1 in
  report !! "error" = None →
  ∃ results, report !! "step_results" = Some (PList (PDict <$> results)) ∧
    report !! "total_steps" = Some (PInt (Z.of_nat (length results))) ∧
    length results ≤ length steps ∧
    ((Forall (λ r, is_success r = true) results ∧ length results = length steps)
     ∨ (∃ init x a,
          results = init ++ [x] ∧ Forall (λ r, is_success r = true) init ∧
          is_success x = false ∧
          x !! "error" = Some (PStr ("Unknown action type: " +:+ a)) ∧
          report !! "steps_completed" = Some (PInt (Z.of_nat (length init))))).
Proof.
  cbn zeta. intros Herr.
  destruct (run_cases steps octx w)
    as [(msg & _ & Hrep)|(rs & ctx & shots & Hloop & Hshots & Hrep)];
    rewrite Hrep in Herr |- *; [done|].
  exists rs. split; [done|]. split; [done|].
  pose proof (loop_entries steps [] (default ∅ octx) w (Forall_nil_2 _)) as Hent.
  rewrite Hloop in Hent.
  destruct Hent as [[Hsucc Hlen]|(init & x & -> & Hinit & Hx & Hlen & Hform)].
  - cbn [length] in Hlen. split; [lia|]. by left.
  - cbn [length] in Hlen. split; [lia|]. right.
    apply collected_have_screenshot in Hshots.
    apply Forall_app in Hshots as [_ Hlast]. rewrite Forall_singleton in Hlast.
    destruct Hform as [Hnone|[a Ha]]; [destruct Hlast as [v Hv]; congruence|].
    exists init, x, a. repeat split; try done.
    rewrite successes_snoc, Hx, (successes_all init Hinit).
    change (Py.mkdict _ !! "steps_completed")
      with (Some (PInt (Z.of_nat (length init) + 0))).
    by rewrite Z.add_0_r.
Qed.

(** X5. The steps after the last reported one have no effect at all: when
    the report is not the report of the [except] branch and has [n] step
    results, the run of the first [n] steps alone gives the same report, the
    same world and the same first [n] steps. *)
Theorem X5_steps_after_the_last_result_are_not_run (steps : list Step)
    (octx : option dict) (w : World E) :
  let run := execute_workflow clock steps octx w in
  run.1.1 !! "error" = None →
  let n := length (step_results_of run.1.1) in
  execute_workflow clock (take n steps) octx w = ((run.1.1, take n run.1.2), run.2).
Proof.
  cbn zeta. intros Herr.
  destruct (run_cases steps octx w)
    as [(msg & _ & Hrep)|(rs & ctx & shots & Hloop & Hshots & Hrep)];
    rewrite Hrep in Herr |- *; [done|].
  change (step_results_of (Py.mkdict _)) with (PDict <$> rs). rewrite length_fmap.
  pose proof (loop_prefix steps [] (default ∅ octx) w) as Hpre.
  pose proof (loop_results clock steps [] (default ∅ octx) w (Forall_nil_2 _)) as Hres.
  rewrite <- Hrep. clear Hrep Herr.
  unfold execute_workflow. rewrite !bind_run.
  destruct (workflow_loop clock steps [] (default ∅ octx) w)
    as [[steps' [[rs' ctx']|msg]] w'] eqn:Hfull; cbn [fst snd] in *; [|done].
  injection Hloop as -> ->. destruct Hpre as [_ Hpre]. cbn [length] in Hpre.
  rewrite Nat.sub_0_r in Hpre. rewrite Hpre. cbn [fst snd ret].
  destruct Hres as [Hdisp _]. unfold build_report.
  rewrite (count_successful_dispatched rs Hdisp), Hshots. done.
Qed.

(** X6. A run only adds to the context: whatever is under a key that is not
    the result key of a step of the list is in the reported context as it
    was in the context the run started with. *)
Theorem X6_context_is_kept (steps : list Step) (octx : option dict) (w : World E) :
  let report := (execute_workflow clock steps octx w).1.1 in
  report !! "error" = None →
  ∃ context, report !! "context" = Some (PDict context) ∧
    ∀ k, (∀ s, s ∈ steps → k ≠ context_key s) → context !! k = default ∅ octx !! k.
Proof.
  cbn zeta. intros Herr.
  destruct (run_cases steps octx w)
    as [(msg & _ & Hrep)|(rs & ctx & shots & Hloop & Hshots & Hrep)];
    rewrite Hrep in Herr |- *; [done|].
  exists ctx. split; [done|]. intros k Hk.
  pose proof (loop_context steps [] (default ∅ octx) w k Hk) as Hctx.
  by rewrite Hloop in Hctx.
Qed.

(** X7. A run leaves the step list as it was but for the targets: every
    step comes back unchanged or with its first fallback selector as its
    target, and the list keeps its length and order. *)
Theorem X7_steps_come_back_retargeted (steps : list Step) (octx : option dict)
    (w : World E) :
  Forall2 retargeted steps (execute_workflow clock steps octx w).1.2.
Proof.
  unfold execute_workflow. rewrite bind_run.
  pose proof (retargeted_loop steps [] (default ∅ octx) w) as Hsteps.
  by destruct (workflow_loop clock steps [] (default ∅ octx) w) as [[? [[??]|?]] ?].
Qed.

(** X8. The endpoint can always build its [Execution] row from the report
    of a run.  The row is ["completed"] with no error message and with both
    counts equal to the length of the list, or it is ["failed"] with fewer
    steps completed than the total. *)
Theorem X8_execution_row_of_a_run (steps : list Step) (octx : option dict) (w : World E) :
  let report := (execute_workflow clock steps octx w).1.1 in
  ∃ row, Api.execution_of report = Returns row ∧
    ((row.(Api.status) = "completed" ∧ row.(Api.error_message) = PNone ∧
      row.(Api.steps_completed) = PInt (Z.of_nat (length steps)) ∧
      row.(Api.total_steps) = PInt (Z.of_nat (length steps)))
     ∨ (row.(Api.status) = "failed" ∧
        ∃ completed total, row.(Api.steps_completed) = PInt completed ∧
                           row.(Api.total_steps) = PInt total ∧
                           (0 ≤ completed < total)%Z)).
Proof.
  cbn zeta.
  destruct (run_cases steps octx w)
    as [(msg & Hne & Hrep)|(rs & ctx & shots & Hloop & Hshots & Hrep)]; rewrite Hrep.
  - eexists. split; [reflexivity|]. right. split; [done|].
    exists 0%Z, (Z.of_nat (length steps)). split; [done|]. split; [done|].
    destruct steps; [done|]. cbn [length]. lia.
  - eexists. split; [reflexivity|]. cbn [Api.status Api.error_message Api.steps_completed
                                         Api.total_steps Py.truthy].
    pose proof (successes_bound rs) as Hb.
    destruct (successes rs =? Z.of_nat (length rs))%Z eqn:Hall.
    + left. apply Z.eqb_eq in Hall.
      pose proof (loop_entries steps [] (default ∅ octx) w (Forall_nil_2 _)) as Hent.
      rewrite Hloop in Hent.
      destruct Hent as [[Hsucc Hlen]|(init & x & -> & Hinit & Hx & _)].
      * cbn [length] in Hlen. rewrite Hall, Hlen. done.
      * rewrite successes_snoc, Hx, length_app in Hall. cbn [length] in Hall.
        pose proof (successes_bound init). lia.
    + right. apply Z.eqb_neq in Hall. split; [done|].
      exists (successes rs), (Z.of_nat (length rs)). split; [done|]. split; [done|]. lia.
Qed.

(** *** The helpers of the Dispatcher, call by call *)

Ltac run_call :=
  match goal with
  | |- context [bind (call ?ev ?op) _ ?w0] =>
    let Hc := fresh "Hcall" in
    destruct (op (ext w0)) as [[?|?] ?] eqn:Hc;
    [ erewrite (bind_eq (call ev op)) by (unfold call; rewrite Hc; reflexivity)
    | erewrite (bind_eq (call ev op)) by (unfold call; rewrite Hc; reflexivity) ];
    cbn [returned]; cbv beta iota
  end.

Ltac run_screenshot :=
  match goal with
  | |- context [bind (_take_screenshot clock) _ ?w0] =>
    let Hs := fresh "Hshot" in
    destruct (take_screenshot_run clock w0) as (? & ? & ? & Hs);
    erewrite (bind_eq (_take_screenshot clock)) by exact Hs; cbv beta iota
  end.

(** X9. [_fill_form] clears the field first unless [clear_first] is false,
    and types only when the clear did not raise; a clear or a type that
    raises ends it with a failure and without a screenshot; otherwise it
    succeeds, with the selector and the typed value (the empty string when
    there is none) as data, after one screenshot. *)
Theorem X9_fill_form_calls (selector : string) (ps : Params) (w : World E) :
  let run := _fill_form clock selector ps w in
  let text := default EmptyString ps.(value) in
  let cleared := if default true ps.(clear_first) then [(EClear selector, true)] else [] in
  (default true ps.(clear_first) = true ∧
   trace run.2 = trace w ++ [(EClear selector, false)] ∧ ∃ msg, run.1 = failure msg)
  ∨ (trace run.2 = trace w ++ cleared ++ [(EType selector text, false)] ∧
     ∃ msg, run.1 = failure msg)
  ∨ (∃ path ok,
       trace run.2 = trace w ++ cleared ++
                       [(EType selector text, true); (EScreenshot path, ok)] ∧
       run.1 !! "success" = Some (PBool true) ∧
       run.1 !! "data"
         = Some (PDict (Py.mkdict [("selector", PStr selector); ("value", PStr text)]))).
Proof.
  cbn zeta. unfold _fill_form. destruct (default true ps.(clear_first)).
  - run_call.
    + right. run_call.
      * right. run_screenshot. cbn [ret fst snd trace]. eexists _, _.
        split; [by rewrite <- !app_assoc|]. done.
      * left. cbn [ret fst snd trace]. split; [by rewrite <- !app_assoc|]. by eexists.
    + left. split; [done|]. cbn [ret fst snd trace]. split; [done|]. by eexists.
  - right. erewrite bind_eq by reflexivity. cbv beta iota. run_call.
    + right. run_screenshot. cbn [ret fst snd trace]. eexists _, _.
      split; [by rewrite <- !app_assoc|]. done.
    + left. cbn [ret fst snd trace]. split; [done|]. by eexists.
Qed.

(** X10. [_navigate_to_url] opens the URL, sleeps [wait_time] milliseconds
    (3000 when there is none) only when that is positive, asks for the title
    and takes a screenshot.  A [goto] that raises ends it at once; a
    [wait_time] too large for a float ends it after the [goto], with the
    message of the [OverflowError] and without a sleep; a title that raises
    ends it after the sleep; all three with a failure and without a
    screenshot.  Otherwise the data is the URL and the title. *)
Theorem X10_navigate_calls (url : string) (ps : Params) (w : World E) :
  let run := _navigate_to_url clock url ps w in
  let wait := default 3000%Z ps.(wait_time) in
  let settle := if (0 <? wait)%Z then [(ESleep wait, true)] else [] in
  (trace run.2 = trace w ++ [(EGoto url, false)] ∧ ∃ msg, run.1 = failure msg)
  ∨ ((0 <? wait)%Z = true ∧
     Py.truediv_1000 wait = Raises "integer division result too large for a float" ∧
     trace run.2 = trace w ++ [(EGoto url, true)] ∧
     run.1 = failure "integer division result too large for a float")
  ∨ (((0 <? wait)%Z = false ∨ Py.truediv_1000 wait = Returns wait) ∧
     ((trace run.2 = trace w ++ (EGoto url, true) :: settle ++ [(ETitle, false)] ∧
       ∃ msg, run.1 = failure msg)
      ∨ (∃ title path ok,
           trace run.2 = trace w ++ (EGoto url, true) :: settle ++
                           [(ETitle, true); (EScreenshot path, ok)] ∧
           run.1 !! "success" = Some (PBool true) ∧
           run.1 !! "data"
             = Some (PDict (Py.mkdict [("url", PStr url); ("title", PStr title)]))))).
Proof.
  cbn zeta. unfold _navigate_to_url. run_call.
  - right. destruct (0 <? default 3000%Z ps.(wait_time))%Z.
    + unfold sleep_millis, Py.truediv_1000.
      destruct (1000 * Py.float_overflow <=? Z.abs (default 3000%Z ps.(wait_time)))%Z.
      * left. erewrite bind_eq by reflexivity. done.
      * right. split; [by right|].
        erewrite bind_eq by reflexivity. cbv beta iota. run_call.
        -- right. run_screenshot. cbn [ret fst snd trace]. eexists _, _, _.
           split; [by rewrite <- !app_assoc|]. done.
        -- left. cbn [ret fst snd trace]. split; [by rewrite <- !app_assoc|]. by eexists.
    + right. split; [by left|].
      erewrite bind_eq by reflexivity. cbv beta iota. run_call.
      * right. run_screenshot. cbn [ret fst snd trace]. eexists _, _, _.
        split; [by rewrite <- !app_assoc|]. done.
      * left. cbn [ret fst snd trace]. split; [by rewrite <- !app_assoc|]. by eexists.
  - left. cbn [ret fst snd trace]. split; [done|]. by eexists.
Qed.

(** X11. [_extract_data] reads the text of the one element for every
    extraction type other than ["attribute"] and ["multiple"], also for one
    it does not know and when there is none: the only query is [text], and
    what it answers is the extracted data. *)
Theorem X11_extract_defaults_to_text (selector : string) (ps : Params) (w : World E) :
  ps.(type_) ≠ Some "attribute" → ps.(type_) ≠ Some "multiple" →
  let run := _extract_data clock selector ps w in
  (trace run.2 = trace w ++ [(EText selector, false)] ∧
   ∃ msg, br_text selector (ext w) = (Raises msg, ext run.2) ∧ run.1 = failure msg)
  ∨ (∃ text path ok e',
       br_text selector (ext w) = (Returns text, e') ∧
       trace run.2 = trace w ++ [(EText selector, true); (EScreenshot path, ok)] ∧
       run.1 !! "success" = Some (PBool true) ∧
       run.1 !! "data"
         = Some (PDict (Py.mkdict [("selector", PStr selector);
                                   ("extracted_data", PStr text)]))).
Proof.
  intros Hattr Hmult. cbn zeta. unfold _extract_data.
  assert (∀ (k : outcome pyval → M dict),
            bind (if (default "text" ps.(type_) =? "text")%string
                  then browser_text selector
                  else if (default "text" ps.(type_) =? "attribute")%string
                  then call (EAttribute selector (default "href" ps.(attribute)))
                            (br_attribute selector (default "href" ps.(attribute)))
                  else if (default "text" ps.(type_) =? "multiple")%string
                  then bind (call (ETextAll selector) (br_text_all selector))
                         (λ r, ret match r with
                                   | Returns l => Returns (PList (PStr <$> l))
                                   | Raises msg => Raises msg
                                   end)
                  else browser_text selector) k
            = bind (browser_text selector) k) as ->.
  { intros k. destruct (default "text" ps.(type_) =? "text")%string eqn:Ht; [done|].
    destruct (default "text" ps.(type_) =? "attribute")%string eqn:Ha.
    { apply String.eqb_eq in Ha. destruct ps.(type_) as [t|] eqn:Hty; [|done].
      cbn in Ha. by subst t. }
    destruct (default "text" ps.(type_) =? "multiple")%string eqn:Hm; [|done].
    apply String.eqb_eq in Hm. destruct ps.(type_) as [t|] eqn:Hty; [|done].
    cbn in Hm. by subst t. }
  unfold browser_text.
  destruct (br_text selector (ext w)) as [[text|msg] e'] eqn:Htext.
  - right.
    erewrite (bind_eq (bind (call (EText selector) (br_text selector)) _))
      by (erewrite bind_eq by (unfold call; rewrite Htext; reflexivity); reflexivity).
    cbv beta iota. cbn [returned]. run_screenshot. cbn [ret fst snd trace].
    eexists text, _, _, e'. split; [done|]. split; [by rewrite <- !app_assoc|]. done.
  - left.
    erewrite (bind_eq (bind (call (EText selector) (br_text selector)) _))
      by (erewrite bind_eq by (unfold call; rewrite Htext; reflexivity); reflexivity).
    cbv beta iota. cbn [returned ret fst snd trace ext]. split; [done|]. by exists msg.
Qed.

(** X12. A conditional step does not fail on a negative answer: when the
    browser answers [exists] with [b], the step succeeds with [b] as
    [data.result], also for [b] false.  A condition type that is none of the
    three known ones is answered with [False] without a query, and the step
    succeeds as well. *)
Theorem X12_conditional_succeeds_whatever_the_answer (condition : string)
    (ps : Params) (ctx : dict) (w : World E) :
  let run := _execute_conditional clock condition ps ctx w in
  (∀ b e', (ps.(type_) = None ∨ ps.(type_) = Some "element_exists") →
     br_exists condition (ext w) = (Returns b, e') →
     run.1 !! "success" = Some (PBool true) ∧
     run.1 !! "data"
       = Some (PDict (Py.mkdict [("condition", PStr condition); ("result", PBool b)]))) ∧
  (∀ t, ps.(type_) = Some t →
     t ≠ "element_exists" → t ≠ "text_contains" → t ≠ "custom" →
     run.1 !! "success" = Some (PBool true) ∧
     run.1 !! "data"
       = Some (PDict (Py.mkdict [("condition", PStr condition); ("result", PBool false)])) ∧
     ∃ path ok, trace run.2 = trace w ++ [(EScreenshot path, ok)]).
Proof.
  cbn zeta. split.
  - intros b e' Hty Hex. unfold _execute_conditional.
    assert (default "element_exists" ps.(type_) = "element_exists") as ->.
    { by destruct Hty as [->| ->]. }
    change (("element_exists" =? "element_exists")%string) with true. cbv iota.
    erewrite (bind_eq (bind (call (EExists condition) (br_exists condition)) _))
      by (erewrite bind_eq by (unfold call; rewrite Hex; reflexivity); reflexivity).
    cbv beta iota. run_screenshot. done.
  - intros t Hty H1 H2 H3. unfold _execute_conditional. rewrite Hty.
    cbn [default from_option]. unfold id.
    apply String.eqb_neq in H1, H2, H3. rewrite H1, H2, H3.
    erewrite bind_eq by reflexivity. cbv beta iota. run_screenshot.
    cbn [ret fst snd trace]. split; [done|]. split; [done|]. by eexists _, _.
Qed.

(** *** The AI-assisted search *)

Lemma ai_click_loop_cons desc shot el els :
  ai_click_loop (E:=E) desc shot (el :: els) =
    match proposed desc el with
    | Some selector =>
      bind (call (EClick selector) (br_click selector))
           (λ r, match r with
                 | Returns _ =>
                   ret (Py.mkdict [("success", PBool true);
                                   ("data", ai_clicked selector);
                                   ("screenshot", PStr shot)])
                 | Raises _ => ai_click_loop desc shot els
                 end)
    | None => ai_click_loop desc shot els
    end.
Proof.
  cbn [ai_click_loop]. unfold proposed.
  destruct (Py.contains _ _); [|done].
  destruct el.(el_selector) as [selector|]; [|done].
  by destruct (Py.truthy (PStr selector)).
Qed.

Lemma ai_click_loop_attempts desc shot els (w : World E) :
  let run := ai_click_loop desc shot els w in
  let sels := omap (proposed desc) els in
  (∃ pre sel post,
     sels = pre ++ sel :: post ∧
     trace run.2 = trace w ++ failed_clicks pre ++ [(EClick sel, true)] ∧
     run.1 !! "success" = Some (PBool true) ∧
     run.1 !! "data" = Some (ai_clicked sel) ∧
     run.1 !! "screenshot" = Some (PStr shot))
  ∨ (trace run.2 = trace w ++ failed_clicks sels ∧
     run.1 = failure "AI could not find the specified element").
Proof.
  revert w. induction els as [|el els IH]; intros w; cbn zeta.
  - right. cbn [ai_click_loop omap list_omap failed_clicks fmap list_fmap ret fst snd].
    by rewrite app_nil_r.
  - rewrite ai_click_loop_cons. cbn [omap list_omap].
    destruct (proposed desc el) as [selector|]; [|apply IH].
    run_call.
    + left. exists [], selector, (omap (proposed desc) els).
      cbn [ret fst snd trace failed_clicks fmap list_fmap app]. done.
    + match goal with |- context [ai_click_loop desc shot els ?w1] =>
        destruct (IH w1) as [(pre & s & post & Hsels & Htr & Hrest)|[Htr Hrun]] end.
      * left. exists (selector :: pre), s, post. split; [by rewrite Hsels|].
        split; [|done]. rewrite Htr. cbn [trace]. by rewrite <- app_assoc.
      * right. split; [|done]. rewrite Htr. cbn [trace]. by rewrite <- app_assoc.
Qed.

(** X13. [_ai_assisted_click] takes one screenshot and asks for one
    analysis.  When the analysis raises, it fails with that message.
    Otherwise it clicks the selectors of the identified elements whose
    description, lowered by [lower()], contains the lowered element
    description, and whose selector is not empty, in the order given and up
    to the first click that returns; the success records that selector,
    marked [ai_assisted], with the screenshot taken before the analysis.
    When none returns, it fails with
    ["AI could not find the specified element"].  This holds whatever
    [lower()] the interpreter has. *)
Theorem X13_ai_assisted_click_attempts (desc : string) (ps : Params) (w : World E) :
  let run := _ai_assisted_click clock desc ps w in
  let task := "Find and click element: " +:+ desc in
  ∃ (path : string) (ok : bool) (e1 : E),
    let shot := if ok then path else EmptyString in
    let asked (ans : bool) := trace w ++ [(EScreenshot path, ok); (EAnalyze shot task, ans)] in
    _take_screenshot clock w
    = (shot, {| ext := e1; reads := S (reads w);
                trace := trace w ++ [(EScreenshot path, ok)] |}) ∧
    ((∃ msg e2, analyze_screenshot shot task e1 = (Raises msg, e2) ∧
               trace run.2 = asked false ∧ run.1 = failure msg)
    ∨ (∃ els e2, analyze_screenshot shot task e1 = (Returns els, e2) ∧
         let sels := omap (proposed desc) els in
         (∃ pre sel post,
            sels = pre ++ sel :: post ∧
            trace run.2 = asked true ++ failed_clicks pre ++ [(EClick sel, true)] ∧
            run.1 !! "success" = Some (PBool true) ∧
            run.1 !! "data" = Some (ai_clicked sel) ∧
            run.1 !! "screenshot" = Some (PStr shot))
         ∨ (trace run.2 = asked true ++ failed_clicks sels ∧
            run.1 = failure "AI could not find the specified element"))).
Proof.
  cbn zeta. unfold _ai_assisted_click.
  destruct (take_screenshot_run clock w) as (path & ok & e1 & Hs).
  erewrite bind_eq by exact Hs. exists path, ok, e1. split; [exact Hs|].
  match goal with |- context [bind (call ?ev ?op) _ ?w0] =>
    destruct (op (ext w0)) as [[els|msg] e2] eqn:Hcall;
    erewrite (bind_eq (call ev op)) by (unfold call; rewrite Hcall; reflexivity);
    cbn [returned]; cbv beta iota end.
  - right. exists els, e2. split; [exact Hcall|].
    match goal with |- context [ai_click_loop desc ?s els ?w1] =>
      destruct (ai_click_loop_attempts desc s els w1)
        as [(pre & sel & post & Hsels & Htr & Hrest)|[Htr Hrun]] end.
    + left. exists pre, sel, post. split; [done|]. split; [|done].
      rewrite Htr. cbn [trace]. by rewrite <- !app_assoc.
    + right. split; [|done]. rewrite Htr. cbn [trace]. by rewrite <- !app_assoc.
  - left. exists msg, e2. split; [exact Hcall|]. cbn [ret fst snd trace].
    split; [by rewrite <- !app_assoc|done].
Qed.

(** *** Recovery passes that dispatch nothing *)

Lemma error_text_str sr text :
  error_text sr = Some text →
  error_description_of sr = text ∧
  recovery_failed (Py.get sr "error" (PStr "Unknown error"))
  = Py.mkdict [("success", PBool false);
               ("error", PStr ("Recovery failed: " +:+ text));
               ("recovery_attempted", PBool true)].
Proof.
  unfold error_text, error_description_of, recovery_failed, Py.get.
  destruct (sr !! "error") as [[]|]; intros [= <-]; done.
Qed.

(** X14. For a step result whose error is a string, [None] or missing, as
    the engine makes them, a recovery pass dispatches nothing, leaves the
    step as it is and makes no call but the consultation in three cases.
    When the advisor raises, it answers the failure with that message,
    without [recovery_attempted].  When the recommendation is neither
    ["immediate_retry"] nor ["alternative_approach"] (["manual_intervention"]
    also stands for a missing one), or is ["alternative_approach"] for a step
    without fallback selectors, it answers the failure
    ["Recovery failed: <error>"] with [recovery_attempted]. *)
Theorem X14_recovery_without_dispatch (step : Step) (sr ctx : dict) (w : World E)
    (text : string) :
  error_text sr = Some text →
  let consult := ERecovery text (workflow_context_of step) in
  let ask := generate_error_recovery_strategy text (workflow_context_of step) (ext w) in
  (∀ msg e', ask = (Raises msg, e') →
     _handle_step_failure clock step sr ctx w
     = ((step, failure msg),
        {| ext := e'; reads := reads w; trace := trace w ++ [(consult, false)] |})) ∧
  (∀ advice e', ask = (Returns advice, e') →
     let action := default "manual_intervention" advice in
     action ≠ "immediate_retry" →
     (action = "alternative_approach" →
      default [] step.(parameters).(fallback_selectors) = []) →
     _handle_step_failure clock step sr ctx w
     = ((step, Py.mkdict [("success", PBool false);
                          ("error", PStr ("Recovery failed: " +:+ text));
                          ("recovery_attempted", PBool true)]),
        after w consult e')).
Proof.
  intros Htext. cbn zeta. destruct (error_text_str sr text Htext) as [Hdesc Hfailed].
  unfold _handle_step_failure. rewrite Hfailed.
  fold (error_description_of sr). fold (workflow_context_of step). rewrite Hdesc. split.
  - intros msg e' Hask.
    erewrite bind_eq by (unfold call; rewrite Hask; reflexivity). done.
  - intros advice e' Hask Hretry Halt.
    erewrite bind_eq by (unfold call; rewrite Hask; reflexivity). cbv beta iota.
    apply String.eqb_neq in Hretry. rewrite Hretry.
    destruct (default "manual_intervention" advice =? "alternative_approach")%string eqn:Ha.
    + apply String.eqb_eq in Ha. by rewrite (Halt Ha).
    + done.
Qed.

(** *** The screenshots of a report *)

Lemma take_screenshot_path (w : World E) :
  ∃ (ok : bool) (e' : E), _take_screenshot clock w
    = (if ok then screenshot_path (clock (reads w)) else EmptyString,
       {| ext := e'; reads := S (reads w);
          trace := trace w ++ [(EScreenshot (screenshot_path (clock (reads w))), ok)] |}).
Proof.
  unfold _take_screenshot. rewrite bind_run. unfold now. cbn [fst snd].
  rewrite bind_run. unfold call. cbn [ext reads trace].
  match goal with |- context [br_screenshot ?p (ext w)] =>
    destruct (br_screenshot p (ext w)) as [[[]|msg] e'] eqn:Hs end.
  - by exists true, e'.
  - by exists false, e'.
Qed.

Lemma take_screenshot_answer :
  yields (λ s, s = EmptyString ∨ ∃ k, s = screenshot_path (clock k))
         (_take_screenshot clock).
Proof.
  intros w. destruct (take_screenshot_path w) as (ok & e' & ->). cbn [fst].
  destruct ok; [right; by exists (reads w)|by left].
Qed.

Lemma successful_step_screenshot step ctx :
  yields (λ r : dict, is_success r = true →
            ∀ v, r !! "screenshot" = Some v → screenshot_entry clock v)
         (execute_workflow_step clock step ctx).
Proof.
  unfold execute_workflow_step.
  eapply yields_bind; [apply yields_any | intros t0 _].
  eapply yields_bind; [apply dispatched_dispatch | intros r [[b Hb] _]].
  { split; [by exists false|done]. }
  eapply yields_bind; [apply yields_any | intros t1 _].
  unfold Py.getitem. rewrite lookup_insert_ne, Hb by done. destruct b; cbn [Py.truthy].
  - eapply yields_bind; [apply take_screenshot_answer | intros shot Hshot].
    apply yields_ret. intros _ v. rewrite lookup_insert_eq. intros [= <-].
    destruct Hshot as [->|[k ->]]; [right; by left|right; right; by exists k].
  - apply yields_ret. unfold is_success. rewrite lookup_insert_ne, Hb by done. done.
Qed.

Lemma step_screenshot step ctx :
  yields (λ r : dict, ∀ v, r !! "screenshot" = Some v → screenshot_entry clock v)
         (execute_workflow_step clock step ctx).
Proof.
  intros w. pose proof (step_result_keys step ctx w) as Hkeys. cbn zeta in Hkeys.
  pose proof (successful_step_screenshot step ctx w) as Hok. cbn beta in Hok.
  destruct (is_success (execute_workflow_step clock step ctx w).1); [by apply Hok|].
  intros v Hv. destruct (recognized step.(action_type)).
  - destruct Hkeys as (_ & _ & [?|[Hnone _]]); congruence.
  - destruct Hkeys as (_ & _ & Hnone & _). rewrite Hnone in Hv. injection Hv as <-. by left.
Qed.

Lemma handle_screenshot step sr ctx :
  yields (λ p : Step * dict,
            is_success p.2 = true →
            ∀ v, p.2 !! "screenshot" = Some v → screenshot_entry clock v)
         (_handle_step_failure clock step sr ctx).
Proof.
  unfold _handle_step_failure.
  eapply yields_bind; [apply yields_any | intros s _].
  repeat case_match;
    repeat first
      [ apply yields_ret; by intros ?
      | eapply yields_bind; [apply step_screenshot | intros r Hr];
        apply yields_ret; by intros _
      | eapply yields_bind; [apply yields_any | intros ? _] ].
Qed.

Lemma round_screenshots step rs ctx (w : World E) :
  Forall (λ r : dict, ∀ v, r !! "screenshot" = Some v → screenshot_entry clock v) rs →
  match (workflow_round clock step rs ctx w).1.2 with
  | Returns (rs', _, _) =>
    Forall (λ r : dict, ∀ v, r !! "screenshot" = Some v → screenshot_entry clock v) rs'
  | Raises _ => True
  end.
Proof.
  intros Hrs. rewrite round_outcome. cbn zeta.
  pose proof (step_screenshot step ctx w) as Hfirst.
  destruct (is_success (execute_workflow_step clock step ctx w).1).
  - destruct (Py.getitem _ "data"); [|done].
    apply Forall_app. split; [done|]. by apply Forall_singleton.
  - apply Forall_app. split; [done|]. apply Forall_singleton.
    match goal with |- context [_handle_step_failure clock step ?sr ctx ?w1] =>
      pose proof (handle_screenshot step sr ctx w1) as Hpass end.
    match goal with |- context [is_success ?rr] =>
      destruct (is_success rr) eqn:Hrr end; [|done].
    intros v Hv. apply Hpass; [first [exact Hrr | reflexivity] | exact Hv].
Qed.

Lemma loop_screenshots steps rs ctx (w : World E) :
  Forall (λ r : dict, ∀ v, r !! "screenshot" = Some v → screenshot_entry clock v) rs →
  match (workflow_loop clock steps rs ctx w).1.2 with
  | Returns (rs', _) =>
    Forall (λ r : dict, ∀ v, r !! "screenshot" = Some v → screenshot_entry clock v) rs'
  | Raises _ => True
  end.
Proof.
  revert rs ctx w. induction steps as [|s steps IH]; intros rs ctx w Hrs; cbn [workflow_loop].
  - done.
  - rewrite bind_run. pose proof (round_screenshots s rs ctx w Hrs) as Hrd.
    destruct (workflow_round clock s rs ctx w) as [[s' [[[rs1 ctx1] go]|msg]] w1];
      cbn [fst snd] in *; [|done].
    destruct go; [|done]. rewrite bind_run. cbn [ret fst snd]. by apply IH.
Qed.

Lemma collected_are_files rs shots :
  Forall (λ r : dict, ∀ v, r !! "screenshot" = Some v → screenshot_entry clock v) rs →
  collect_screenshots rs = Returns shots →
  Forall (λ v, ∃ k, v = PStr (screenshot_path (clock k))) shots ∧ length shots ≤ length rs.
Proof.
  intros Hrs. revert shots. induction Hrs as [|r rs Hr _ IH]; intros shots Hc.
  - injection Hc as <-. by split.
  - cbn [collect_screenshots] in Hc. unfold Py.getitem in Hc.
    destruct (r !! "screenshot") as [v|] eqn:Hv; [|done].
    destruct (collect_screenshots rs) as [shots'|]; [|done].
    destruct (IH shots' eq_refl) as [Hall Hlen]. injection Hc as <-.
    destruct (Py.truthy v) eqn:Htruthy; cbn [length]; [|split; [done|lia]].
    split; [|lia]. apply Forall_cons. split; [|done].
    destruct (Hr v eq_refl) as [->|[->|?]]; done.
Qed.

(** X15. The ["screenshots"] of a report hold file names only: every
    entry is the name [screenshots/screenshot_<stamp>.png] of a screenshot
    taken at a reading of the clock; the [None] of a failed step and the
    empty string of a screenshot that could not be taken are left out, so
    there are at most as many as step results.  The report of the [except]
    branch has no ["screenshots"]. *)
Theorem X15_reported_screenshots_are_files (steps : list Step) (octx : option dict)
    (w : World E) :
  let report := (execute_workflow clock steps octx w).1.1 in
  (report !! "screenshots" = None ∧ ∃ msg, report = error_report steps msg)
  ∨ (∃ shots, report !! "screenshots" = Some (PList shots) ∧
       Forall (λ v, ∃ k, v = PStr (screenshot_path (clock k))) shots ∧
       length shots ≤ length (step_results_of report)).
Proof.
  cbn zeta.
  destruct (run_cases steps octx w)
    as [(msg & _ & Hrep)|(rs & ctx & shots & Hloop & Hshots & Hrep)]; rewrite Hrep.
  - left. split; [done|by exists msg].
  - right. exists shots. split; [done|].
    pose proof (loop_screenshots steps [] (default ∅ octx) w (Forall_nil_2 _)) as Hall.
    rewrite Hloop in Hall.
    destruct (collected_are_files rs shots Hall Hshots) as [Hfiles Hlen].
    split; [done|].
    change (step_results_of (Py.mkdict _)) with (PDict <$> rs). by rewrite length_fmap.
Qed.

End Further.

(** ** The further properties on concrete inputs *)

(** The hypothesis of X3 holds for the healthy run of three steps. *)
Lemma X3_witness :
  let report := (execute_workflow clock steps_1_2_4 None (start healthy)).1.1 in
  report !! "workflow_success" = Some (PBool true) ∧
  report !! "error" = None ∧
  report !! "steps_completed" = Some (PInt (Z.of_nat (length steps_1_2_4))) ∧
  report !! "total_steps" = Some (PInt (Z.of_nat (length steps_1_2_4))) ∧
  ∃ results, report !! "step_results" = Some (PList (PDict <$> results)) ∧
             length results = length steps_1_2_4 ∧
             Forall (λ r, is_success r = true) results.
Proof.
  cbn zeta. split; [vm_compute; reflexivity|].
  apply (X3_success_means_every_step_ran clock steps_1_2_4 None (start healthy)).
  vm_compute; reflexivity.
Defined.

(** The hypothesis of X4 holds when a step of unknown type ends the run. *)
Lemma X4_witness :
  let steps := [mkstep 1 "navigate" "https://x" no_params; hover_step] in
  let report := (execute_workflow clock steps None (start manual)).1.1 in
  report !! "error" = None ∧
  ∃ results, report !! "step_results" = Some (PList (PDict <$> results)) ∧
    report !! "total_steps" = Some (PInt (Z.of_nat (length results))) ∧
    length results ≤ length steps ∧
    ((Forall (λ r, is_success r = true) results ∧ length results = length steps)
     ∨ (∃ init x a,
          results = init ++ [x] ∧ Forall (λ r, is_success r = true) init ∧
          is_success x = false ∧
          x !! "error" = Some (PStr ("Unknown action type: " +:+ a)) ∧
          report !! "steps_completed" = Some (PInt (Z.of_nat (length init))))).
Proof.
  cbn zeta. split; [vm_compute; reflexivity|].
  apply (X4_only_an_unknown_action_fails_in_a_report clock
           [mkstep 1 "navigate" "https://x" no_params; hover_step] None (start manual)).
  vm_compute; reflexivity.
Defined.

(** The hypothesis of X5 holds when the run stops at the first of two steps. *)
Lemma X5_witness :
  let steps := [hover_step; mkstep 2 "navigate" "https://x" no_params] in
  let run := execute_workflow clock steps None (start manual) in
  run.1.1 !! "error" = None ∧
  let n := length (step_results_of run.1.1) in
  execute_workflow clock (take n steps) None (start manual)
  = ((run.1.1, take n run.1.2), run.2).
Proof.
  cbn zeta. split; [vm_compute; reflexivity|].
  apply (X5_steps_after_the_last_result_are_not_run clock
           [hover_step; mkstep 2 "navigate" "https://x" no_params] None (start manual)).
  vm_compute; reflexivity.
Defined.

(** The hypothesis of X6 holds for a healthy run that starts with a context. *)
Lemma X6_witness :
  let given := Some ({["user" := PStr "ann"]} : dict) in
  let report := (execute_workflow clock steps_1_2_4 given (start healthy)).1.1 in
  report !! "error" = None ∧
  ∃ context, report !! "context" = Some (PDict context) ∧
    ∀ k, (∀ s, s ∈ steps_1_2_4 → k ≠ context_key s) →
         context !! k = default ∅ given !! k.
Proof.
  cbn zeta. split; [vm_compute; reflexivity|].
  apply (X6_context_is_kept clock steps_1_2_4
           (Some ({["user" := PStr "ann"]} : dict)) (start healthy)).
  vm_compute; reflexivity.
Defined.

(** The hypotheses of X11 hold for an extraction type the code does not
    know. *)
Lemma X11_witness :
  let ps := wait_visible.(parameters) in
  let run := _extract_data clock "#result" ps (start healthy) in
  ps.(type_) ≠ Some "attribute" ∧ ps.(type_) ≠ Some "multiple" ∧
  ((trace run.2 = trace (start healthy) ++ [(EText "#result", false)] ∧
    ∃ msg, br_text "#result" (ext (start healthy)) = (Raises msg, ext run.2) ∧
           run.1 = failure msg)
   ∨ (∃ text path ok e',
        br_text "#result" (ext (start healthy)) = (Returns text, e') ∧
        trace run.2 = trace (start healthy) ++
                        [(EText "#result", true); (EScreenshot path, ok)] ∧
        run.1 !! "success" = Some (PBool true) ∧
        run.1 !! "data"
          = Some (PDict (Py.mkdict [("selector", PStr "#result");
                                    ("extracted_data", PStr text)])))).
Proof.
  cbn zeta. split; [discriminate|]. split; [discriminate|].
  apply (X11_extract_defaults_to_text clock "#result" wait_visible.(parameters)
           (start healthy)); discriminate.
Defined.

(** The hypotheses of X12 hold for an element that is not there and for a
    condition type the code does not know. *)
Lemma X12_witness :
  (let run := _execute_conditional clock "#submit" no_params ∅ (start manual) in
   no_params.(type_) = None ∧
   br_exists "#submit" (ext (start manual)) = (Returns false, manual) ∧
   run.1 !! "success" = Some (PBool true) ∧
   run.1 !! "data"
     = Some (PDict (Py.mkdict [("condition", PStr "#submit"); ("result", PBool false)]))) ∧
  (let run := _execute_conditional clock "#submit" wait_visible.(parameters) ∅
                (start manual) in
   wait_visible.(parameters).(type_) = Some "visible" ∧
   run.1 !! "success" = Some (PBool true) ∧
   run.1 !! "data"
     = Some (PDict (Py.mkdict [("condition", PStr "#submit"); ("result", PBool false)])) ∧
   ∃ path ok, trace run.2 = trace (start manual) ++ [(EScreenshot path, ok)]).
Proof.
  split; cbn zeta.
  - split; [reflexivity|]. split; [reflexivity|].
    apply (X12_conditional_succeeds_whatever_the_answer clock "#submit" no_params ∅
             (start manual)) with (e' := manual); [by left|reflexivity].
  - split; [reflexivity|].
    apply (X12_conditional_succeeds_whatever_the_answer clock "#submit"
             wait_visible.(parameters) ∅ (start manual)) with (t := "visible");
      first [reflexivity | discriminate].
Defined.

(** The hypotheses of X14 hold when the advisor recommends manual
    intervention for the failure of a step of unknown type. *)
Lemma X14_witness :
  let sr := (execute_workflow_step clock hover_step ∅ (start manual)).1 in
  let text := "Unknown action type: hover" in
  let action := default "manual_intervention" manual.(advice) in
  error_text sr = Some text ∧
  generate_error_recovery_strategy text (workflow_context_of hover_step) (ext (start manual))
  = (Returns manual.(advice), manual) ∧
  action ≠ "immediate_retry" ∧
  (action = "alternative_approach" →
   default [] hover_step.(parameters).(fallback_selectors) = []) ∧
  _handle_step_failure clock hover_step sr ∅ (start manual)
  = ((hover_step, Py.mkdict [("success", PBool false);
                             ("error", PStr ("Recovery failed: " +:+ text));
                             ("recovery_attempted", PBool true)]),
     after (start manual) (ERecovery text (workflow_context_of hover_step)) manual).
Proof.
  cbn zeta. split; [vm_compute; reflexivity|].
  split; [reflexivity|]. split; [discriminate|]. split; [discriminate|].
  apply (X14_recovery_without_dispatch clock hover_step
           (execute_workflow_step clock hover_step ∅ (start manual)).1 ∅ (start manual)
           "Unknown action type: hover")
    with (advice := manual.(advice));
    first [vm_compute; reflexivity | discriminate].
Defined.

(** A [wait_time] and a [timeout] of [10^400] milliseconds: the division by
    1000 raises, so a navigation fails after its [goto] and a timed wait
    fails without a call; nothing is slept. *)
Example huge_waits_fail :
  (let run := _navigate_to_url clock "https://x" (huge_wait []) (start healthy) in
   trace run.2 = [(EGoto "https://x", true)] ∧
   run.1 = failure "integer division result too large for a float") ∧
  (let ps := {| wait_time := None; fallback_selectors := None; value := None;
                clear_first := None; type_ := None; attribute := None;
                timeout := Some (10 ^ 400)%Z; search_text := None;
                javascript := None |} in
   let run := _wait_action clock EmptyString ps (start healthy) in
   trace run.2 = [] ∧
   run.1 = failure "integer division result too large for a float").
Proof. cbn zeta. repeat split; vm_compute; reflexivity. Qed.

(** A description beyond ASCII: ["ärger"] cannot be clicked, the advisor
    identifies an element described as ["ÄRGER melden"], whose lowered
    description contains ["ärger"], and its selector is clicked. *)
Example ai_click_lowers_beyond_ascii :
  let env := {| broken := ["ärger"]; advice := None;
                proposals := [{| el_description := Some "ÄRGER melden";
                                 el_selector := Some "#x" |}] |} in
  let run := _click_element clock "ärger" no_params (start env) in
  Py.lower "ÄRGER melden" = "ärger melden" ∧
  clicks (trace run.2) = [("ärger", false); ("#x", true)] ∧
  run.1 !! "success" = Some (PBool true) ∧
  run.1 !! "data" = Some (ai_clicked "#x").
Proof. cbn zeta. repeat split; vm_compute; reflexivity. Qed.
